(** * Booking back end: reservation scheduler, ratings and moderation

    A shallow embedding of the Express route handlers of
    [src/routes/bookings.js] and [src/routes/playgrounds.js] over the MySQL
    schema of the repository's dump (tables [bookings], [playgrounds],
    [playground_reports]).

    Every handler is a function from the database to a response and the
    database it leaves behind.  The handlers run their statements one by
    one on an auto-committing pool (there is no transaction), so a handler
    that fails half-way leaves the statements already executed in place. *)

From Stdlib Require Import ZArith List String Ascii Bool Lia.
From Stdlib Require Import OrderedTypeEx.
Import ListNotations.

Local Open Scope string_scope.
Local Open Scope list_scope.
Local Open Scope Z_scope.

(** ** SQL comparison of the [varchar(5)] time columns

    [timeStart] and [timeEnd] are [varchar(5)] columns holding ["HH:MM"];
    the conflict query compares them as strings.  On strings of digits and
    colons the column collation orders like the lexicographic order on
    character codes, which is [String.compare]. *)

Module Time.

Definition t := string.

(** SQL [x < y], [x > y], [x <= y], [x >= y] on time strings. *)
Definition lt (x y : t) : bool := String.ltb x y.
Definition gt (x y : t) : bool := String.ltb y x.
Definition le (x y : t) : bool := String.leb x y.
Definition ge (x y : t) : bool := String.leb y x.

End Time.

(** ** Tables *)

(** [status enum('pending','confirmed','cancelled')] *)
Inductive booking_status := pending | confirmed | cancelled.

Definition status_eqb (a b : booking_status) : bool :=
  match a, b with
  | pending, pending | confirmed, confirmed | cancelled, cancelled => true
  | _, _ => false
  end.

(** Rows of [bookings].  [created_at] is never read and is left out.
    [status] and [rated] are nullable in the schema but every row the
    application writes fills them (defaults ['pending'] and [0]). *)
Module Booking.
Record t := mk {
  id : Z;
  playgroundId : Z;
  userId : Z;
  date : string;
  timeStart : Time.t;
  timeEnd : Time.t;
  status : booking_status;
  rated : bool;
  rating : option Z          (* int DEFAULT NULL *)
}.

Definition set_status (s : booking_status) (b : t) : t :=
  mk (id b) (playgroundId b) (userId b) (date b) (timeStart b) (timeEnd b)
     s (rated b) (rating b).

(** [SET rated = TRUE, rating = r] *)
Definition set_rating (r : Z) (b : t) : t :=
  mk (id b) (playgroundId b) (userId b) (date b) (timeStart b) (timeEnd b)
     (status b) true (Some r).
End Booking.

(** Rows of [playgrounds], restricted to the columns the scheduler, the
    rating aggregation and the moderation read or write.  [rating] is a
    [decimal(3,1)]: it is kept as a number of tenths.

    [isActive] is not a column of the table: the [CREATE TABLE] of the
    dump does not have it.  It is the flag the specification gives a
    venue and the one the report handler names in [SET isActive = FALSE].
    The rows carry it so that statements about the flag can be written;
    no statement of the application reads it, and the one that names it
    is refused by the server (see [update_playground_isActive]). *)
Module Playground.
Record t := mk {
  id : Z;
  userId : Z;                (* the owner *)
  reports : Z;
  rating : Z;                (* tenths: 43 stands for 4.3 *)
  isActive : bool
}.

Definition set_rating (tenths : Z) (p : t) : t :=
  mk (id p) (userId p) (reports p) tenths (isActive p).

(** [SET reports = reports + 1] *)
Definition incr_reports (p : t) : t :=
  mk (id p) (userId p) (reports p + 1) (rating p) (isActive p).

(** The row with its flag cleared: what [SET isActive = FALSE] would
    leave on a table that had the column. *)
Definition deactivate (p : t) : t :=
  mk (id p) (userId p) (reports p) (rating p) false.
End Playground.

(** Rows of [playground_reports] ([id] and [created_at] are never read). *)
Module Report.
Record t := mk {
  playgroundId : Z;
  userId : Z;
  reason : string
}.
End Report.

(** The database: the three tables in insertion order and the
    [AUTO_INCREMENT] counter of [bookings]. *)
Record db := mkDb {
  playgrounds : list Playground.t;
  bookings : list Booking.t;
  playground_reports : list Report.t;
  next_booking_id : Z
}.

Definition with_bookings (bs : list Booking.t) (d : db) : db :=
  mkDb (playgrounds d) bs (playground_reports d) (next_booking_id d).

Definition with_playgrounds (ps : list Playground.t) (d : db) : db :=
  mkDb ps (bookings d) (playground_reports d) (next_booking_id d).

(** ** Responses

    A handler answers with [res.status(201).json(...)] (the created
    booking), with [res.json({ message })] (status 200), or with
    [res.status(code).json({ error })].  The error texts are classified by
    the error kinds of the specification:

    - 400 "Missing required fields: ..."            [ValidationError]
    - 400 (cannot book one's own playground)        [SelfBookingNotAllowed]
    - 400 (this time slot is already booked)        [SlotConflict]
    - 404 "Booking not found"                       [NotFound]
    - 400 "Only pending bookings can be cancelled"  [InvalidState]
    - 403 "Unauthorized"                            [Unauthorized]
    - 400 (you have already reported this court)    [DuplicateReport]
    - 500 [error.message] of a failed statement     [StorageError] *)

Inductive error_kind :=
| NotFound | Unauthorized | InvalidState | SlotConflict
| SelfBookingNotAllowed | DuplicateReport | ValidationError | StorageError.

Inductive response :=
| Created (b : Booking.t)
| Ok
| Error (code : Z) (kind : error_kind).

(** ** Statements shared by the handlers *)

(** [x || 0] style truthiness of the request fields: a number is falsy
    when it is 0, a string when it is empty.  A field absent from the body
    is [undefined], which the handlers only ever test with [!]; it is
    represented by the falsy value of its type. *)
Definition falsy_num (n : Z) : bool := n =? 0.
Definition falsy_str (s : string) : bool := (s =? "")%string.

(** Range of a MySQL [int] column and of a [decimal(3,1)] column (in
    tenths).  The server runs in its default strict mode: storing a value
    out of range fails the statement.  The range matters for the values a
    single request controls, the rating and the average computed from it.
    The two counters, [reports] and the [AUTO_INCREMENT] of [bookings],
    only move by one per successful request and are counted in [Z]. *)
Definition int_min : Z := -2147483648.
Definition int_max : Z := 2147483647.
Definition in_int_range (n : Z) : bool := (int_min <=? n) && (n <=? int_max).
Definition in_decimal_3_1 (tenths : Z) : bool := Z.abs tenths <=? 999.

(** Exact-value rounding of MySQL ([n / d] rounded half away from zero),
    for [0 < d]. *)
Definition round_div (n d : Z) : Z :=
  if 0 <=? n then (2 * n + d) / (2 * d) else - ((2 * (- n) + d) / (2 * d)).

Definition sum (l : list Z) : Z := fold_right Z.add 0 l.

(** ** What the server makes of the strings of a request

    The body of a request carries [date], [timeStart] and [timeEnd] as
    strings; the columns they go to are [date date NOT NULL] and
    [varchar(5) NOT NULL].  In strict mode the server refuses a string it
    cannot read as a date and a string longer than the column. *)

Definition code (c : ascii) : nat := nat_of_ascii c.

Definition is_digit (c : ascii) : bool :=
  ((48 <=? code c) && (code c <=? 57))%nat.

Definition is_punctuation (c : ascii) : bool :=
  ((33 <=? code c) && (code c <=? 47)
   || (58 <=? code c) && (code c <=? 64)
   || (91 <=? code c) && (code c <=? 96)
   || (123 <=? code c) && (code c <=? 126))%nat.

Fixpoint digits_value (acc : Z) (l : list ascii) : Z :=
  match l with
  | [] => acc
  | c :: l' => digits_value (10 * acc + (Z.of_nat (code c) - 48)) l'
  end.

(** The leading digits of a string and what follows them. *)
Fixpoint span_digits (l : list ascii) : list ascii * list ascii :=
  match l with
  | c :: l' =>
      if is_digit c
      then let (ds, rest) := span_digits l' in (c :: ds, rest)
      else ([], l)
  | [] => ([], [])
  end.

(** The year, month and day digits of a date string: three groups of
    digits with one punctuation character between them (['2025-01-15'],
    ['2025-1-15'], ['2025/01/15'], ['25-01-15']), or eight or six digits
    in a row (['20250115'], ['250115']). *)
Definition date_fields (s : string)
  : option (list ascii * list ascii * list ascii) :=
  let (y, r1) := span_digits (list_ascii_of_string s) in
  match r1 with
  | [] =>
      match List.length y with
      | 8%nat => Some (firstn 4 y, firstn 2 (skipn 4 y), skipn 6 y)
      | 6%nat => Some (firstn 2 y, firstn 2 (skipn 2 y), skipn 4 y)
      | _ => None
      end
  | c1 :: r1' =>
      let (m, r2) := span_digits r1' in
      match r2 with
      | c2 :: r2' =>
          let (dd, r3) := span_digits r2' in
          match r3 with
          | [] => if is_punctuation c1 && is_punctuation c2
                  then Some (y, m, dd) else None
          | _ :: _ => None
          end
      | [] => None
      end
  end.

Definition leap_year (y : Z) : bool :=
  (y mod 4 =? 0) && negb (y mod 100 =? 0) || (y mod 400 =? 0).

Definition days_in_month (y m : Z) : Z :=
  if (m =? 4) || (m =? 6) || (m =? 9) || (m =? 11) then 30
  else if m =? 2 then (if leap_year y then 29 else 28)
  else 31.

Definition digit (n : Z) : ascii := ascii_of_nat (48 + Z.to_nat n).

Definition two_digits (n : Z) : string :=
  String (digit (n / 10)) (String (digit (n mod 10)) "").

(** The [DATE] value the server reads from a string, written
    ['YYYY-MM-DD'] as the server writes it back, or [None] when the string
    is refused.  A year of two digits is read in 1970 to 2069; the month
    and the day may have one digit; the date has to exist in the calendar
    (no month or day 0, no 30 February).  Strings that carry a time of day
    after the date are not followed here: they are among the refused. *)
Definition as_date (s : string) : option string :=
  match date_fields s with
  | None => None
  | Some (y, m, dd) =>
      let year :=
        match List.length y with
        | 4%nat => Some (digits_value 0 y)
        | 2%nat => Some (let v := digits_value 0 y in
                         if v <? 70 then 2000 + v else 1900 + v)
        | _ => None
        end in
      match year with
      | None => None
      | Some year =>
          let month := digits_value 0 m in
          let day := digits_value 0 dd in
          if ((1 <=? List.length m) && (List.length m <=? 2)
              && (1 <=? List.length dd) && (List.length dd <=? 2))%nat
             && (1 <=? year) && (1 <=? month) && (month <=? 12)
             && (1 <=? day) && (day <=? days_in_month year month)
          then Some (String.append (two_digits (year / 100))
                       (String.append (two_digits (year mod 100))
                          (String "-" (String.append (two_digits month)
                             (String "-" (two_digits day))))))
          else None
      end
  end.

(** The number of characters of a string (the strings are UTF-8: a byte
    from 128 to 191 continues a character). *)
Definition utf8_length (s : string) : nat :=
  List.length
    (filter (fun c => negb ((128 <=? code c) && (code c <=? 191))%nat)
            (list_ascii_of_string s)).

(** A string as a [varchar(5)] column stores it: refused when it has more
    than five characters.  (An excess made of trailing spaces only, which
    the server cuts off, is not followed here: it is among the refused.) *)
Definition as_varchar5 (s : string) : option string :=
  if (utf8_length s <=? 5)%nat then Some s else None.

(** A [text] column holds 65535 bytes. *)
Definition fits_text (s : string) : bool :=
  Z.of_nat (String.length s) <=? 65535.

(** [SELECT ... FROM playgrounds WHERE id = ?] *)
Definition select_playground (id : Z) (d : db) : list Playground.t :=
  filter (fun p => Playground.id p =? id) (playgrounds d).

(** The ratings [AVG] ranges over:
    [FROM bookings WHERE playgroundId = ? AND rated = TRUE AND rating IS NOT NULL] *)
Definition rated_ratings (playgroundId : Z) (bs : list Booking.t) : list Z :=
  flat_map (fun b =>
    if (Booking.playgroundId b =? playgroundId) && Booking.rated b
    then match Booking.rating b with Some r => [r] | None => [] end
    else []) bs.

(** [SELECT AVG(rating) as avgRating ...]: [NULL] over no row; over an
    [int] column the result is a decimal with four fractional digits, kept
    here as a number of ten-thousandths. *)
Definition select_avg_rating (playgroundId : Z) (d : db) : option Z :=
  match rated_ratings playgroundId (bookings d) with
  | [] => None
  | rs => Some (round_div (sum rs * 10000) (Z.of_nat (List.length rs)))
  end.

(** [SET rated = TRUE, rating = ? WHERE id = ?] on the rows of [bookings]. *)
Definition rate_rows (rating bookingId : Z) (bs : list Booking.t) : list Booking.t :=
  map (fun b => if Booking.id b =? bookingId
                then Booking.set_rating rating b else b) bs.

(** [UPDATE bookings SET rated = TRUE, rating = ? WHERE id = ?].
    [None] when the statement fails (a matching row and a rating that does
    not fit the [int] column). *)
Definition update_booking_rating (rating bookingId : Z) (d : db) : option db :=
  if existsb (fun b => Booking.id b =? bookingId) (bookings d)
     && negb (in_int_range rating)
  then None
  else Some (with_bookings (rate_rows rating bookingId (bookings d)) d).

(** [UPDATE playgrounds SET rating = ? WHERE id = ?] with an average in
    ten-thousandths: the [decimal(3,1)] column rounds it to one fractional
    digit.  [None] when the statement fails (a matching row and a value out
    of the column's range). *)
Definition update_playground_rating (avgRating id : Z) (d : db) : option db :=
  let tenths := round_div avgRating 1000 in
  if existsb (fun p => Playground.id p =? id) (playgrounds d)
     && negb (in_decimal_3_1 tenths)
  then None
  else Some (with_playgrounds
               (map (fun p => if Playground.id p =? id
                              then Playground.set_rating tenths p else p)
                    (playgrounds d)) d).

(** [UPDATE bookings SET status = s WHERE id = ?] *)
Definition update_booking_status (s : booking_status) (id : Z) (d : db) : db :=
  with_bookings
    (map (fun b => if Booking.id b =? id then Booking.set_status s b else b)
         (bookings d)) d.

(** ** [src/routes/bookings.js]

    Every route is behind the [auth] middleware, which sets [req.userId]
    from a verified token; tokens are issued for rows of [users], which are
    never deleted, so the foreign keys on [userId] always hold. *)
Module BookingRoutes.

(** [const { playgroundId, date, timeStart, timeEnd } = req.body] *)
Record create_body := mkCreate {
  playgroundId : Z;
  date : string;
  timeStart : Time.t;
  timeEnd : Time.t
}.

(** The three clauses of the conflict query on a row [(rowStart, rowEnd)],
    with the parameters bound as the handler binds them:
    [timeEnd, timeStart, timeEnd, timeEnd, timeStart, timeEnd]. *)
Definition three_clause (rowStart rowEnd timeStart timeEnd : Time.t) : bool :=
  (Time.lt rowStart timeEnd && Time.gt rowEnd timeStart)
  || (Time.lt rowStart timeEnd && Time.gt rowEnd timeEnd)
  || (Time.ge rowStart timeStart && Time.le rowEnd timeEnd).

(** [WHERE playgroundId = ? AND date = ? AND status != 'cancelled' AND (...)]:
    the [date] column is compared with the [DATE] value of the parameter. *)
Definition slot_taken (body : create_body) (b : Booking.t) : bool :=
  (Booking.playgroundId b =? playgroundId body)
  && match as_date (date body) with
     | Some day => (Booking.date b =? day)%string
     | None => false
     end
  && negb (status_eqb (Booking.status b) cancelled)
  && three_clause (Booking.timeStart b) (Booking.timeEnd b)
                  (timeStart body) (timeEnd body).

(** [INSERT INTO bookings (playgroundId, userId, date, timeStart, timeEnd)]:
    the row takes the next id and the column defaults.  The statement
    fails when [playgroundId] references no playground (foreign key
    [bookings_ibfk_1]), when [date] is not read as a date and when a time
    does not fit its [varchar(5)]. *)
Definition insert_booking (userId : Z) (body : create_body) (d : db)
  : option (Booking.t * db) :=
  match select_playground (playgroundId body) d, as_date (date body),
        as_varchar5 (timeStart body), as_varchar5 (timeEnd body) with
  | _ :: _, Some day, Some timeStart, Some timeEnd =>
      let b := Booking.mk (next_booking_id d) (playgroundId body) userId
                 day timeStart timeEnd pending false None in
      Some (b, mkDb (playgrounds d) (bookings d ++ [b])
                    (playground_reports d) (next_booking_id d + 1))
  | _, _, _, _ => None
  end.

(** [router.post('/', auth, ...)].  A [date] the server does not read as
    a date makes a statement throw, the conflict query or at the latest
    the insert: the answer is 500 and nothing is written either way.  The
    201 answer repeats the fields of the request with the new id and
    ['pending']; it is given here by the row inserted. *)
Definition create (userId : Z) (body : create_body) (d : db) : response * db :=
  if falsy_num (playgroundId body) || falsy_str (date body)
     || falsy_str (timeStart body) || falsy_str (timeEnd body)
  then (Error 400 ValidationError, d)
  else
    let playground := select_playground (playgroundId body) d in
    if match playground with
       | p :: _ => Playground.userId p =? userId
       | [] => false
       end
    then (Error 400 SelfBookingNotAllowed, d)
    else
      match as_date (date body) with
      | None => (Error 500 StorageError, d)
      | Some _ =>
          let existing := filter (slot_taken body) (bookings d) in
          if (0 <? List.length existing)%nat
          then (Error 400 SlotConflict, d)
          else match insert_booking userId body d with
               | Some (b, d') => (Created b, d')
               | None => (Error 500 StorageError, d)
               end
      end.

(** [router.patch('/:id/cancel', auth, ...)] *)
Definition cancel (userId id : Z) (d : db) : response * db :=
  let booking :=
    filter (fun b => (Booking.id b =? id) && (Booking.userId b =? userId))
           (bookings d) in
  match booking with
  | [] => (Error 404 NotFound, d)
  | b :: _ =>
      if negb (status_eqb (Booking.status b) pending)
      then (Error 400 InvalidState, d)
      else (Ok, update_booking_status cancelled id d)
  end.

(** [SELECT b.*, p.userId as ownerId FROM bookings b
     JOIN playgrounds p ON b.playgroundId = p.id WHERE b.id = ?] *)
Definition select_with_owner (id : Z) (d : db) : list (Booking.t * Z) :=
  flat_map (fun b =>
    if Booking.id b =? id
    then map (fun p => (b, Playground.userId p))
             (select_playground (Booking.playgroundId b) d)
    else []) (bookings d).

(** [router.patch('/:id/confirm', auth, ...)] *)
Definition confirm (userId id : Z) (d : db) : response * db :=
  match select_with_owner id d with
  | [] => (Error 403 Unauthorized, d)
  | (_, ownerId) :: _ =>
      if negb (ownerId =? userId)
      then (Error 403 Unauthorized, d)
      else (Ok, update_booking_status confirmed id d)
  end.

(** [const { rating, bookingId } = req.body] *)
Record rating_body := mkRating {
  rating : Z;
  bookingId : Z
}.

(** [router.patch('/:id/rating', auth, ...)]: the booking first, then
    the average of the playground named in the URL. *)
Definition rating_handler (userId id : Z) (body : rating_body) (d : db)
  : response * db :=
  match update_booking_rating (rating body) (bookingId body) d with
  | None => (Error 500 StorageError, d)
  | Some d1 =>
      let ratingResult := select_avg_rating id d1 in
      let avgRating := match ratingResult with Some a => a | None => 0 end in
      match update_playground_rating avgRating id d1 with
      | None => (Error 500 StorageError, d1)
      | Some d2 => (Ok, d2)
      end
  end.

End BookingRoutes.

(** ** [src/routes/playgrounds.js] *)
Module PlaygroundRoutes.

(** [router.patch('/:id/rating', auth, ...)]: the average first, then
    the booking. *)
Definition rating_handler (userId id : Z) (body : BookingRoutes.rating_body)
    (d : db) : response * db :=
  let ratingResult := select_avg_rating id d in
  let avgRating := match ratingResult with Some a => a | None => 0 end in
  match update_playground_rating avgRating id d with
  | None => (Error 500 StorageError, d)
  | Some d1 =>
      match update_booking_rating (BookingRoutes.rating body)
                                  (BookingRoutes.bookingId body) d1 with
      | None => (Error 500 StorageError, d1)
      | Some d2 => (Ok, d2)
      end
  end.

(** [INSERT INTO playground_reports (playgroundId, userId, reason)]: fails
    on the foreign key [playground_reports_ibfk_1], on the unique key
    [unique_report (playgroundId, userId)] and on a [reason] too long for
    its [text] column. *)
Definition insert_report (playgroundId userId : Z) (reason : string) (d : db)
  : option db :=
  match select_playground playgroundId d with
  | [] => None
  | _ :: _ =>
      if existsb (fun r => (Report.playgroundId r =? playgroundId)
                           && (Report.userId r =? userId))
                 (playground_reports d)
         || negb (fits_text reason)
      then None
      else Some (mkDb (playgrounds d) (bookings d)
                      (playground_reports d
                         ++ [Report.mk playgroundId userId reason])
                      (next_booking_id d))
  end.

(** [UPDATE playgrounds SET isActive = FALSE WHERE id = ?].  The table
    [playgrounds] of the dump has no column [isActive]: the server refuses
    the statement (unknown column), whatever the rows are. *)
Definition update_playground_isActive (id : Z) (d : db) : option db := None.

(** [router.post('/:id/report', auth, ...)] *)
Definition report (userId playgroundId : Z) (reason : string) (d : db)
  : response * db :=
  let existing :=
    filter (fun r => (Report.playgroundId r =? playgroundId)
                     && (Report.userId r =? userId))
           (playground_reports d) in
  if (0 <? List.length existing)%nat
  then (Error 400 DuplicateReport, d)
  else
    match insert_report playgroundId userId reason d with
    | None => (Error 500 StorageError, d)
    | Some d1 =>
        (* UPDATE playgrounds SET reports = reports + 1 WHERE id = ? *)
        let d2 := with_playgrounds
                    (map (fun p => if Playground.id p =? playgroundId
                                   then Playground.incr_reports p else p)
                         (playgrounds d1)) d1 in
        (* SELECT reports FROM playgrounds WHERE id = ? *)
        match select_playground playgroundId d2 with
        | [] => (Error 500 StorageError, d2)   (* playground[0] is undefined *)
        | p :: _ =>
            if 5 <=? Playground.reports p
            then match update_playground_isActive playgroundId d2 with
                 | Some d3 => (Ok, d3)
                 | None => (Error 500 StorageError, d2)
                 end
            else (Ok, d2)
        end
    end.

End PlaygroundRoutes.

(** ** The core operations as requests, and their runs *)

Inductive request :=
| RequestBooking (userId : Z) (body : BookingRoutes.create_body)
| Cancel (userId bookingId : Z)
| Confirm (userId bookingId : Z)
| RateBooking (userId playgroundId : Z) (body : BookingRoutes.rating_body)
| RatePlayground (userId playgroundId : Z) (body : BookingRoutes.rating_body)
| ReportVenue (userId playgroundId : Z) (reason : string).

Definition handle (r : request) (d : db) : response * db :=
  match r with
  | RequestBooking u body => BookingRoutes.create u body d
  | Cancel u id => BookingRoutes.cancel u id d
  | Confirm u id => BookingRoutes.confirm u id d
  | RateBooking u id body => BookingRoutes.rating_handler u id body d
  | RatePlayground u id body => PlaygroundRoutes.rating_handler u id body d
  | ReportVenue u id reason => PlaygroundRoutes.report u id reason d
  end.

Fixpoint run (rs : list request) (d : db) : db :=
  match rs with
  | [] => d
  | r :: rs' => run rs' (snd (handle r d))
  end.

(** ** The interval model of the specification *)

(** The half-open intersection test: [a.start < b.end AND b.start < a.end]
    (this definition follows the specification's words, not the query). *)
Definition overlaps (aStart aEnd bStart bEnd : Time.t) : bool :=
  Time.lt aStart bEnd && Time.lt bStart aEnd.

(** An existing booking stands in the way of a request, in the
    specification's words: same venue, same date, not cancelled, and its
    interval overlaps the requested one. *)
Definition conflicts_with (body : BookingRoutes.create_body) (b : Booking.t) : bool :=
  (Booking.playgroundId b =? BookingRoutes.playgroundId body)
  && match as_date (BookingRoutes.date body) with
     | Some day => (Booking.date b =? day)%string
     | None => false
     end
  && negb (status_eqb (Booking.status b) cancelled)
  && overlaps (Booking.timeStart b) (Booking.timeEnd b)
              (BookingRoutes.timeStart body) (BookingRoutes.timeEnd body).

(** The required-fields test of the create handler, and its self-booking
    test, as conditions on a request. *)
Definition missing_fields (body : BookingRoutes.create_body) : bool :=
  falsy_num (BookingRoutes.playgroundId body)
  || falsy_str (BookingRoutes.date body)
  || falsy_str (BookingRoutes.timeStart body)
  || falsy_str (BookingRoutes.timeEnd body).

Definition owns (userId playgroundId : Z) (d : db) : bool :=
  match select_playground playgroundId d with
  | p :: _ => Playground.userId p =? userId
  | [] => false
  end.

(** ** The rating aggregate *)

(** [tenths / 10] is the arithmetic mean of [rs], and 0 when [rs] is empty
    (this definition follows the specification's words). *)
Definition mean_in_tenths (rs : list Z) (tenths : Z) : Prop :=
  match rs with
  | [] => tenths = 0
  | _ :: _ => tenths * Z.of_nat (List.length rs) = 10 * sum rs
  end.

(** What a playground's [rating] column holds after the [AVG] of its rated
    bookings [bs] went through [|| 0] and into the [decimal(3,1)] column:
    the mean to four fractional digits, rounded again to one. *)
Definition stored_average (playgroundId : Z) (bs : list Booking.t) : Z :=
  match rated_ratings playgroundId bs with
  | [] => 0
  | rs => round_div (round_div (sum rs * 10000) (Z.of_nat (List.length rs))) 1000
  end.

(** Rows that keep their place in a table that only grows: every row of
    [l] has a successor at the same position of [l'], related by [R]. *)
Definition extends {A : Type} (R : A -> A -> Prop) (l l' : list A) : Prop :=
  exists l1 l2, l' = l1 ++ l2 /\ Forall2 R l l1.

(** ** Keys

    [PRIMARY KEY (id)] on [bookings] and on [playgrounds], with the
    [AUTO_INCREMENT] counter of [bookings] ahead of every stored id. *)
Definition keys_ok (d : db) : Prop :=
  NoDup (map Playground.id (playgrounds d))
  /\ NoDup (map Booking.id (bookings d))
  /\ Forall (fun i => i < next_booking_id d) (map Booking.id (bookings d)).

(** ** The moderation rule of the specification *)

(** A venue after one more report: the count goes up by one, and the
    venue is inactive from the moment the new count reaches 5. *)
Definition reported (p : Playground.t) : Playground.t :=
  Playground.mk (Playground.id p) (Playground.userId p)
    (Playground.reports p + 1) (Playground.rating p)
    (if 5 <=? Playground.reports p + 1 then false else Playground.isActive p).

(** ** Sample states

    One court (id 1, owner 10) or two (id 2, owner 11), and bookings on
    15 January 2025. *)

Definition court (id owner : Z) : Playground.t :=
  Playground.mk id owner 0 0 true.

Definition slot (id playgroundId userId : Z) (timeStart timeEnd : Time.t)
    (s : booking_status) : Booking.t :=
  Booking.mk id playgroundId userId "2025-01-15" timeStart timeEnd s false None.

Definition one_court (bs : list Booking.t) : db :=
  mkDb [court 1 10] bs [] (1 + Z.of_nat (List.length bs)).

Definition ask (timeStart timeEnd : Time.t) : BookingRoutes.create_body :=
  BookingRoutes.mkCreate 1 "2025-01-15" timeStart timeEnd.

(** Confirmed bookings from 09:00 to 10:00, booking 1 on 13 January,
    booking 2 on 14 January and the others on 15 January. *)
Definition day (id : Z) : string :=
  match id with
  | 1 => "2025-01-13"
  | 2 => "2025-01-14"
  | _ => "2025-01-15"
  end.

Definition rated_slot (id playgroundId userId : Z) (r : Z) : Booking.t :=
  Booking.mk id playgroundId userId (day id) "09:00" "10:00" confirmed
             true (Some r).

Definition unrated_slot (id playgroundId userId : Z) : Booking.t :=
  Booking.mk id playgroundId userId (day id) "09:00" "10:00" confirmed
             false None.

(** Court 1 (owner 10, never rated) and court 2 (owner 11, stored rating
    5.0). *)
Definition two_courts (bs : list Booking.t) : db :=
  mkDb [court 1 10; Playground.mk 2 11 0 50 true] bs []
       (1 + Z.of_nat (List.length bs)).

(** ** The listings of [src/routes/bookings.js]

    Both listings join [bookings] with [playgrounds] (and, for the second,
    with [users], which always has the row, see above) and sort by date.
    The rows are given by their [b.*] columns; the names the join adds
    ([playgroundName], [userName]) are columns outside this model. *)

(** [ORDER BY] with a comparison [le]: rows with equal keys stay in the
    order of the table. *)
Fixpoint insert_by (le : Booking.t -> Booking.t -> bool) (b : Booking.t)
    (l : list Booking.t) : list Booking.t :=
  match l with
  | [] => [b]
  | x :: l' => if le b x then b :: l else x :: insert_by le b l'
  end.

Definition order_by (le : Booking.t -> Booking.t -> bool) (l : list Booking.t)
  : list Booking.t :=
  fold_right (insert_by le) [] l.

(** [ORDER BY b.date ASC] and [ORDER BY b.date DESC]. *)
Definition date_asc (a b : Booking.t) : bool :=
  String.leb (Booking.date a) (Booking.date b).
Definition date_desc (a b : Booking.t) : bool :=
  String.leb (Booking.date b) (Booking.date a).

Module BookingLists.

(** [router.get('/', auth, ...)]:
    [FROM bookings b JOIN playgrounds p ON b.playgroundId = p.id
     WHERE b.userId = ? ORDER BY b.date DESC] *)
Definition mine (userId : Z) (d : db) : list Booking.t :=
  order_by date_desc
    (flat_map (fun b =>
       flat_map (fun p => if Booking.userId b =? userId then [b] else [])
                (select_playground (Booking.playgroundId b) d))
       (bookings d)).

(** [router.get('/incoming', auth, ...)]:
    [FROM bookings b JOIN playgrounds p ON b.playgroundId = p.id
     JOIN users u ON b.userId = u.id
     WHERE p.userId = ? AND b.status = 'pending' ORDER BY b.date ASC] *)
Definition incoming (userId : Z) (d : db) : list Booking.t :=
  order_by date_asc
    (flat_map (fun b =>
       flat_map (fun p => if (Playground.userId p =? userId)
                             && status_eqb (Booking.status b) pending
                          then [b] else [])
                (select_playground (Booking.playgroundId b) d))
       (bookings d)).

End BookingLists.

(** ** Listing and deleting in [src/routes/playgrounds.js] *)
Module PlaygroundAdmin.

(** [router.get('/user', auth, ...)]:
    [SELECT * FROM playgrounds WHERE userId = ?] *)
Definition mine (userId : Z) (d : db) : list Playground.t :=
  filter (fun p => Playground.userId p =? userId) (playgrounds d).

(** [DELETE FROM playgrounds WHERE id = ? AND userId = ?].  The foreign
    keys [bookings_ibfk_1] and [playground_reports_ibfk_1] have no
    [ON DELETE] rule: the statement fails while a booking or a report
    references a row it would delete. *)
Definition delete_playground (id userId : Z) (d : db) : option db :=
  if existsb (fun p => (Playground.id p =? id) && (Playground.userId p =? userId))
             (playgrounds d)
     && (existsb (fun b => Booking.playgroundId b =? id) (bookings d)
         || existsb (fun r => Report.playgroundId r =? id) (playground_reports d))
  then None
  else Some (with_playgrounds
               (filter (fun p => negb ((Playground.id p =? id)
                                       && (Playground.userId p =? userId)))
                       (playgrounds d)) d).

(** [router.delete('/:id', auth, ...)] *)
Definition delete (userId id : Z) (d : db) : response * db :=
  let playground :=
    filter (fun p => (Playground.id p =? id) && (Playground.userId p =? userId))
           (playgrounds d) in
  match playground with
  | [] => (Error 403 Unauthorized, d)
  | _ :: _ =>
      match delete_playground id userId d with
      | Some d' => (Ok, d')
      | None => (Error 500 StorageError, d)
      end
  end.

End PlaygroundAdmin.

(** ** All the operations that write *)

Inductive operation :=
| Core (r : request)
| DeletePlayground (userId id : Z).

Definition step (o : operation) (d : db) : response * db :=
  match o with
  | Core r => handle r d
  | DeletePlayground u id => PlaygroundAdmin.delete u id d
  end.

Fixpoint run_all (os : list operation) (d : db) : db :=
  match os with
  | [] => d
  | o :: os' => run_all os' (snd (step o d))
  end.

(** ** Invariants of the tables *)

(** The foreign keys on [playgroundId]: every booking and every report
    references a stored playground. *)
Definition references_ok (d : db) : Prop :=
  (forall b, In b (bookings d) ->
     In (Booking.playgroundId b) (map Playground.id (playgrounds d)))
  /\ (forall r, In r (playground_reports d) ->
        In (Report.playgroundId r) (map Playground.id (playgrounds d))).

(** [UNIQUE KEY unique_report (playgroundId, userId)] *)
Definition unique_reports (d : db) : Prop :=
  NoDup (map (fun r => (Report.playgroundId r, Report.userId r))
             (playground_reports d)).

(** The number of stored reports against a playground. *)
Definition report_count (playgroundId : Z) (d : db) : Z :=
  Z.of_nat (List.length
              (filter (fun r => Report.playgroundId r =? playgroundId)
                      (playground_reports d))).

(** The [reports] column counts the stored reports. *)
Definition counts_ok (d : db) : Prop :=
  forall p, In p (playgrounds d) ->
    Playground.reports p = report_count (Playground.id p) d.

(** Two bookings claim the same court at the same time: same playground,
    same date, neither cancelled, and overlapping intervals. *)
Definition live (b : Booking.t) : bool :=
  negb (status_eqb (Booking.status b) cancelled).

Definition clash (a b : Booking.t) : bool :=
  (Booking.playgroundId a =? Booking.playgroundId b)
  && (Booking.date a =? Booking.date b)%string
  && live a && live b
  && overlaps (Booking.timeStart a) (Booking.timeEnd a)
              (Booking.timeStart b) (Booking.timeEnd b).

Definition no_double_booking (d : db) : Prop :=
  ForallOrdPairs (fun a b => clash a b = false) (bookings d).

(** A day on court 1: user 20 books 09:00 to 10:00 and cancels, user 30
    books 09:30 to 10:30, the owner confirms the cancelled booking, user 30
    reports the court and the owner tries to delete it. *)
Definition busy_day : list operation :=
  [Core (RequestBooking 20 (ask "09:00" "10:00"));
   Core (Cancel 20 1);
   Core (RequestBooking 30 (ask "09:30" "10:30"));
   Core (Confirm 10 1);
   Core (ReportVenue 30 1 "noisy");
   DeletePlayground 10 1].

(** * Properties *)

(** ** The order on time strings

    The comparison of the clauses below only uses that [<] is transitive
    and that [<=] is [<] or equality, which every collation provides. *)

Lemma time_lt_iff (x y : Time.t) : Time.lt x y = true <-> String_as_OT.lt x y.
Proof.
  unfold Time.lt, String.ltb.
  rewrite <- String_as_OT.cmp_lt. unfold String_as_OT.cmp.
  destruct (String.compare x y); split; congruence.
Qed.

Lemma time_le_iff (x y : Time.t) :
  Time.le x y = true <-> Time.lt x y = true \/ x = y.
Proof.
  unfold Time.le, Time.lt, String.leb, String.ltb.
  destruct (String.compare x y) eqn:E; split; intros H; auto; try discriminate.
  - right. now apply String.compare_eq_iff.
  - destruct H as [H | H]; [discriminate |].
    subst y. assert (String.compare x x = Eq) as R
      by now apply (proj2 (String_as_OT.cmp_eq x x)).
    congruence.
Qed.

Lemma time_lt_trans (x y z : Time.t) :
  Time.lt x y = true -> Time.lt y z = true -> Time.lt x z = true.
Proof.
  rewrite !time_lt_iff. apply String_as_OT.lt_trans.
Qed.

Lemma time_lt_irrefl (x : Time.t) : Time.lt x x = false.
Proof.
  destruct (Time.lt x x) eqn:E; [| reflexivity].
  apply time_lt_iff in E. apply String_as_OT.lt_not_eq in E.
  exfalso. apply E. reflexivity.
Qed.

Lemma time_le_lt_trans (x y z : Time.t) :
  Time.le x y = true -> Time.lt y z = true -> Time.lt x z = true.
Proof.
  intros H1 H2. apply time_le_iff in H1 as [H1 | ->]; [| assumption].
  eapply time_lt_trans; eassumption.
Qed.

Lemma time_lt_le_trans (x y z : Time.t) :
  Time.lt x y = true -> Time.le y z = true -> Time.lt x z = true.
Proof.
  intros H1 H2. apply time_le_iff in H2 as [H2 | <-]; [| assumption].
  eapply time_lt_trans; eassumption.
Qed.

(** The second and the third clause of the query are contained in the
    first one as soon as both intervals are non-empty. *)
Lemma second_clause_in_first (rowStart rowEnd timeStart timeEnd : Time.t) :
  Time.lt timeStart timeEnd = true ->
  Time.lt rowStart timeEnd && Time.gt rowEnd timeEnd = true ->
  Time.lt rowStart timeEnd && Time.gt rowEnd timeStart = true.
Proof.
  intros Hreq H. apply andb_true_iff in H as [H1 H2].
  apply andb_true_iff. split; [assumption |].
  unfold Time.gt in *. eapply time_lt_trans; eassumption.
Qed.

Lemma third_clause_in_first (rowStart rowEnd timeStart timeEnd : Time.t) :
  Time.lt rowStart rowEnd = true ->
  Time.ge rowStart timeStart && Time.le rowEnd timeEnd = true ->
  Time.lt rowStart timeEnd && Time.gt rowEnd timeStart = true.
Proof.
  intros Hrow H. apply andb_true_iff in H as [H1 H2].
  apply andb_true_iff. unfold Time.gt, Time.ge in *. split.
  - eapply time_lt_le_trans; eassumption.
  - eapply time_le_lt_trans; eassumption.
Qed.

Lemma three_clause_overlaps (rowStart rowEnd timeStart timeEnd : Time.t) :
  Time.lt rowStart rowEnd = true ->
  Time.lt timeStart timeEnd = true ->
  BookingRoutes.three_clause rowStart rowEnd timeStart timeEnd
  = overlaps rowStart rowEnd timeStart timeEnd.
Proof.
  intros Hrow Hreq. unfold BookingRoutes.three_clause, overlaps.
  change (Time.lt timeStart rowEnd) with (Time.gt rowEnd timeStart).
  destruct (Time.lt rowStart timeEnd && Time.gt rowEnd timeStart) eqn:First;
    [reflexivity |].
  destruct (Time.lt rowStart timeEnd && Time.gt rowEnd timeEnd) eqn:Second.
  - rewrite (second_clause_in_first _ _ _ _ Hreq Second) in First. discriminate.
  - destruct (Time.ge rowStart timeStart && Time.le rowEnd timeEnd) eqn:Third;
      [| reflexivity].
    rewrite (third_clause_in_first _ _ _ _ Hrow Third) in First. discriminate.
Qed.

(** C2: for an existing row [a] and a request [b] with [start < end] on
    both, the three-clause disjunction of the conflict query,
    [(a.start < b.end AND a.end > b.start) OR (a.start < b.end AND a.end > b.end)
     OR (a.start >= b.start AND a.end <= b.end)], has the same truth value as
    the single half-open test [a.start < b.end AND b.start < a.end]. *)
Theorem three_clause_is_half_open_test (aStart aEnd bStart bEnd : Time.t) :
  Time.lt aStart aEnd = true ->
  Time.lt bStart bEnd = true ->
  BookingRoutes.three_clause aStart aEnd bStart bEnd
  = (Time.lt aStart bEnd && Time.lt bStart aEnd).
Proof.
  intros Ha Hb. now rewrite three_clause_overlaps.
Qed.

Lemma three_clause_is_half_open_test_witness :
  Time.lt "09:30" "10:30" = true /\ Time.lt "09:00" "10:00" = true /\
  BookingRoutes.three_clause "09:30" "10:30" "09:00" "10:00"
  = (Time.lt "09:30" "10:00" && Time.lt "09:00" "10:30").
Proof.
  split; [reflexivity |]. split; [reflexivity |].
  apply three_clause_is_half_open_test; reflexivity.
Defined.

(** ** Creating a booking *)

Lemma filter_nonempty_iff {A : Type} (f : A -> bool) (l : list A) :
  (0 <? List.length (filter f l))%nat = true
  <-> exists x, In x l /\ f x = true.
Proof.
  split.
  - destruct (filter f l) as [| x xs] eqn:E; [discriminate |].
    intros _. exists x. apply filter_In. rewrite E. now left.
  - intros [x Hx]. apply filter_In in Hx.
    destruct (filter f l); [contradiction | reflexivity].
Qed.


(** What the create handler does once the required fields are there and
    the requester does not own the playground. *)
Lemma create_past_guards (userId : Z) (body : BookingRoutes.create_body) (d : db) :
  missing_fields body = false ->
  owns userId (BookingRoutes.playgroundId body) d = false ->
  BookingRoutes.create userId body d
  = match as_date (BookingRoutes.date body) with
    | None => (Error 500 StorageError, d)
    | Some _ =>
        if (0 <? List.length (filter (BookingRoutes.slot_taken body)
                                     (bookings d)))%nat
        then (Error 400 SlotConflict, d)
        else match BookingRoutes.insert_booking userId body d with
             | Some (b, d') => (Created b, d')
             | None => (Error 500 StorageError, d)
             end
    end.
Proof.
  unfold missing_fields, owns, BookingRoutes.create.
  intros -> ->. reflexivity.
Qed.

(** The row an insert makes. *)
Lemma insert_booking_row (userId : Z) (body : BookingRoutes.create_body)
    (d : db) (b : Booking.t) (d' : db) :
  BookingRoutes.insert_booking userId body d = Some (b, d') ->
  exists day timeStart timeEnd,
    as_date (BookingRoutes.date body) = Some day
    /\ as_varchar5 (BookingRoutes.timeStart body) = Some timeStart
    /\ as_varchar5 (BookingRoutes.timeEnd body) = Some timeEnd
    /\ b = Booking.mk (next_booking_id d) (BookingRoutes.playgroundId body)
             userId day timeStart timeEnd pending false None
    /\ d' = mkDb (playgrounds d) (bookings d ++ [b]) (playground_reports d)
                 (next_booking_id d + 1)
    /\ select_playground (BookingRoutes.playgroundId body) d <> [].
Proof.
  unfold BookingRoutes.insert_booking.
  destruct (select_playground (BookingRoutes.playgroundId body) d) eqn:E;
    [discriminate |].
  destruct (as_date (BookingRoutes.date body)) as [day |]; [| discriminate].
  destruct (as_varchar5 (BookingRoutes.timeStart body)) as [ts |];
    [| discriminate].
  destruct (as_varchar5 (BookingRoutes.timeEnd body)) as [te |];
    [| discriminate].
  intros H. injection H as <- <-. exists day, ts, te. repeat split. discriminate.
Qed.

Lemma insert_booking_some (userId : Z) (body : BookingRoutes.create_body)
    (d : db) (b : Booking.t) (d' : db) :
  BookingRoutes.insert_booking userId body d = Some (b, d') ->
  Booking.status b = pending
  /\ Booking.id b = next_booking_id d
  /\ bookings d' = bookings d ++ [b]
  /\ playgrounds d' = playgrounds d
  /\ select_playground (BookingRoutes.playgroundId body) d <> [].
Proof.
  intros H.
  apply insert_booking_row in H as (day & ts & te & _ & _ & _ & -> & -> & Sel).
  now repeat split.
Qed.





(** The same happens with well-formed rows when the request runs
    backwards: (11:00, 09:30) against a stored (09:00, 10:00) matches the
    second clause only. *)
Lemma create_backward_request_conflicts :
  fst (BookingRoutes.create 30 (ask "11:00" "09:30")
         (one_court [slot 1 1 20 "09:00" "10:00" pending]))
  = Error 400 SlotConflict
  /\ conflicts_with (ask "11:00" "09:30") (slot 1 1 20 "09:00" "10:00" pending)
     = false.
Proof.
  split; reflexivity.
Qed.

(** The self-booking test and the required-fields test come before the
    conflict query: with an overlapping booking in the table, the owner
    (user 10) is answered [SelfBookingNotAllowed] and a request without a
    start time [ValidationError]. *)
Lemma create_guards_precede_conflict :
  BookingRoutes.create 10 (ask "09:00" "10:00")
    (one_court [slot 1 1 20 "09:30" "10:30" pending])
  = (Error 400 SelfBookingNotAllowed,
     one_court [slot 1 1 20 "09:30" "10:30" pending])
  /\ BookingRoutes.create 30 (ask "" "10:00")
       (one_court [slot 1 1 20 "09:30" "10:30" pending])
     = (Error 400 ValidationError,
        one_court [slot 1 1 20 "09:30" "10:30" pending])
  /\ conflicts_with (ask "" "10:00") (slot 1 1 20 "09:30" "10:30" pending)
     = true.
Proof.
  repeat split.
Qed.

(** The date is compared as a date and the columns refuse what they
    cannot hold: a request dated 2025-1-15 meets the booking stored for
    2025-01-15; times with seconds do not fit [varchar(5)] and 30 February
    is no date, the answer is 500 and nothing is written. *)
Lemma create_reads_dates_and_lengths :
  BookingRoutes.create 30 (BookingRoutes.mkCreate 1 "2025-1-15" "09:00" "10:00")
    (one_court [slot 1 1 20 "09:30" "10:30" pending])
  = (Error 400 SlotConflict, one_court [slot 1 1 20 "09:30" "10:30" pending])
  /\ BookingRoutes.create 30
       (BookingRoutes.mkCreate 1 "2025-01-15" "09:00:00" "10:00:00")
       (one_court [])
     = (Error 500 StorageError, one_court [])
  /\ BookingRoutes.create 30
       (BookingRoutes.mkCreate 1 "2025-02-30" "09:00" "10:00") (one_court [])
     = (Error 500 StorageError, one_court []).
Proof.
  repeat split.
Qed.

(** ** What the create handler checks *)

Lemma select_playground_map (f : Playground.t -> Playground.t) (id : Z) (d : db) :
  (forall p, Playground.id (f p) = Playground.id p) ->
  select_playground id (with_playgrounds (map f (playgrounds d)) d)
  = map f (select_playground id d).
Proof.
  intros Hid. unfold select_playground, with_playgrounds. cbn.
  induction (playgrounds d) as [| p ps IH]; [reflexivity |].
  cbn. rewrite Hid, IH. now destruct (Playground.id p =? id).
Qed.

(** Deactivating every playground changes no answer of the create
    handler: [isActive] is not read. *)
Lemma create_ignores_isActive (userId : Z) (body : BookingRoutes.create_body)
    (d : db) :
  fst (BookingRoutes.create userId body
         (with_playgrounds (map Playground.deactivate (playgrounds d)) d))
  = fst (BookingRoutes.create userId body d).
Proof.
  unfold BookingRoutes.create, BookingRoutes.insert_booking.
  rewrite (select_playground_map Playground.deactivate) by reflexivity.
  destruct (falsy_num _ || _ || _ || _); [reflexivity |].
  destruct (select_playground (BookingRoutes.playgroundId body) d) as [| p ps];
    cbn -[Nat.ltb as_date as_varchar5].
  - destruct (as_date _); [| reflexivity]. now destruct (0 <? _)%nat.
  - destruct (Playground.userId p =? userId); [reflexivity |].
    destruct (as_date _); [| reflexivity].
    destruct (0 <? _)%nat; [reflexivity |].
    now destruct (as_varchar5 (BookingRoutes.timeStart body)),
      (as_varchar5 (BookingRoutes.timeEnd body)).
Qed.

(** C3 (amended): the create handler answers [ValidationError] exactly
    when a required field is missing (it never compares [start] with
    [end]); it creates a booking only when the fields are present, the
    requester does not own the venue, no stored booking matches the
    conflict query and the referenced venue exists; a request naming a
    venue that does not exist leaves the database as it was; and the
    venue's [isActive] flag is not consulted. *)
Theorem create_checks (userId : Z) (body : BookingRoutes.create_body) (d : db) :
  (fst (BookingRoutes.create userId body d) = Error 400 ValidationError
   <-> missing_fields body = true)
  /\ (forall b d', BookingRoutes.create userId body d = (Created b, d') ->
        missing_fields body = false
        /\ owns userId (BookingRoutes.playgroundId body) d = false
        /\ filter (BookingRoutes.slot_taken body) (bookings d) = []
        /\ select_playground (BookingRoutes.playgroundId body) d <> [])
  /\ (select_playground (BookingRoutes.playgroundId body) d = [] ->
      snd (BookingRoutes.create userId body d) = d)
  /\ fst (BookingRoutes.create userId body
            (with_playgrounds (map Playground.deactivate (playgrounds d)) d))
     = fst (BookingRoutes.create userId body d).
Proof.
  split; [| split; [| split]]; [| | | apply create_ignores_isActive].
  - unfold BookingRoutes.create, missing_fields.
    destruct (falsy_num _ || _ || _ || _); [now split |].
    split; [| discriminate].
    destruct (match select_playground _ d with _ :: _ => _ | [] => _ end);
      [discriminate |].
    destruct (as_date _); [| discriminate].
    destruct (0 <? _)%nat; [discriminate |].
    destruct (BookingRoutes.insert_booking userId body d) as [[b d'] |];
      discriminate.
  - intros b d'.
    destruct (missing_fields body) eqn:Hm;
      [unfold BookingRoutes.create; unfold missing_fields in Hm; rewrite Hm;
       discriminate |].
    destruct (owns userId (BookingRoutes.playgroundId body) d) eqn:Ho;
      [unfold BookingRoutes.create; unfold missing_fields, owns in Hm, Ho;
       rewrite Hm, Ho; discriminate |].
    rewrite (create_past_guards _ _ _ Hm Ho).
    destruct (as_date (BookingRoutes.date body)); [| discriminate].
    destruct (filter (BookingRoutes.slot_taken body) (bookings d)) eqn:Hf;
      [| discriminate].
    cbn. destruct (BookingRoutes.insert_booking userId body d) as [[b0 d0] |] eqn:Ins;
      [| discriminate].
    intros _. apply insert_booking_some in Ins as (_ & _ & _ & _ & Hp). auto.
  - intros Hnone. unfold BookingRoutes.create, BookingRoutes.insert_booking.
    rewrite Hnone.
    destruct (falsy_num _ || _ || _ || _); [reflexivity |].
    destruct (as_date _); [| reflexivity].
    now destruct (0 <? _)%nat.
Qed.

(** C3, as stated, fails: a request with [start >= end] is not answered
    [ValidationError] but creates the booking, and a request against a
    deactivated venue creates one too. *)
Lemma create_accepts_empty_interval_and_inactive_venue :
  BookingRoutes.create 20 (ask "11:00" "11:00") (one_court [])
  = (Created (slot 1 1 20 "11:00" "11:00" pending),
     one_court [slot 1 1 20 "11:00" "11:00" pending])
  /\ BookingRoutes.create 20 (ask "09:00" "10:00")
       (mkDb [Playground.mk 1 10 5 0 false] [] [] 1)
     = (Created (slot 1 1 20 "09:00" "10:00" pending),
        mkDb [Playground.mk 1 10 5 0 false]
             [slot 1 1 20 "09:00" "10:00" pending] [] 2).
Proof.
  split; reflexivity.
Qed.

(** ** Cancelling and confirming *)

(** A table with a primary key holds one row per key. *)
Lemma filter_unique_key {A : Type} (key : A -> Z) (l : list A) (x : A) (i : Z) :
  NoDup (map key l) -> In x l -> key x = i ->
  filter (fun y => key y =? i) l = [x].
Proof.
  induction l as [| a l IH]; intros Hnd Hin Hk; [contradiction |].
  cbn in Hnd. apply NoDup_cons_iff in Hnd as [Hfresh Hnd]. cbn.
  destruct Hin as [-> | Hin].
  - rewrite (proj2 (Z.eqb_eq _ _) Hk). f_equal.
    destruct (filter (fun y => key y =? i) l) as [| y ys] eqn:E; [reflexivity |].
    exfalso. apply Hfresh.
    assert (In y (filter (fun y => key y =? i) l)) as Hy by (rewrite E; now left).
    apply filter_In in Hy as [Hy Hyk]. apply Z.eqb_eq in Hyk.
    rewrite Hk, <- Hyk. now apply in_map.
  - destruct (key a =? i) eqn:Ea; [| now apply IH].
    exfalso. apply Hfresh. apply Z.eqb_eq in Ea.
    rewrite Ea, <- Hk. now apply in_map.
Qed.

Lemma filter_no_key {A : Type} (f : A -> bool) (l : list A) :
  (forall x, In x l -> f x = false) -> filter f l = [].
Proof.
  induction l as [| a l IH]; intros H; [reflexivity |].
  cbn. rewrite (H a) by now left. apply IH. intros x Hx. apply H. now right.
Qed.

Lemma filter_andb {A : Type} (f g : A -> bool) (l : list A) :
  filter (fun x => f x && g x) l = filter g (filter f l).
Proof.
  induction l as [| a l IH]; [reflexivity |].
  cbn. destruct (f a); cbn; [destruct (g a) |]; now rewrite IH.
Qed.

Lemma flat_map_if {A B : Type} (c : A -> bool) (F : A -> list B) (l : list A) :
  flat_map (fun x => if c x then F x else []) l = flat_map F (filter c l).
Proof.
  induction l as [| a l IH]; [reflexivity |].
  cbn. destruct (c a); cbn; now rewrite IH.
Qed.

Lemma update_status_at (s : booking_status) (id : Z) (d : db) (b : Booking.t) :
  In b (bookings d) -> Booking.id b = id ->
  In (Booking.set_status s b) (bookings (update_booking_status s id d)).
Proof.
  intros Hin Hid. unfold update_booking_status. cbn.
  apply in_map_iff. exists b. split; [| assumption].
  now rewrite (proj2 (Z.eqb_eq _ _) Hid).
Qed.

Lemma update_status_keys (s : booking_status) (id : Z) (d : db) :
  map Booking.id (bookings (update_booking_status s id d))
  = map Booking.id (bookings d).
Proof.
  unfold update_booking_status. cbn. rewrite map_map.
  apply map_ext. intros b. now destruct (Booking.id b =? id).
Qed.

Lemma status_eqb_eq (a b : booking_status) : status_eqb a b = true <-> a = b.
Proof.
  destruct a, b; cbn; split; congruence.
Qed.

(** The row the cancel handler looks at. *)
Lemma cancel_lookup (userId id : Z) (d : db) (b : Booking.t) :
  NoDup (map Booking.id (bookings d)) ->
  In b (bookings d) -> Booking.id b = id ->
  filter (fun x => (Booking.id x =? id) && (Booking.userId x =? userId))
         (bookings d)
  = if Booking.userId b =? userId then [b] else [].
Proof.
  intros Hkey Hin Hid.
  rewrite (filter_andb (fun x => Booking.id x =? id)
                       (fun x => Booking.userId x =? userId)).
  rewrite (filter_unique_key Booking.id _ b id Hkey Hin Hid). reflexivity.
Qed.

(** C6 (amended): under the primary key of [bookings], cancel fails with
    [NotFound] (404) when no booking has that id and also when the booking
    is not the caller's; it fails with [InvalidState] when the caller's
    booking is not [pending]; and when the caller's booking is [pending] it
    becomes [cancelled], after which a second cancel by the same caller
    fails with [InvalidState]. *)
Theorem cancel_outcomes (userId id : Z) (d : db) :
  NoDup (map Booking.id (bookings d)) ->
  ((forall b, In b (bookings d) -> Booking.id b = id ->
      Booking.userId b <> userId) ->
   BookingRoutes.cancel userId id d = (Error 404 NotFound, d))
  /\ (forall b, In b (bookings d) -> Booking.id b = id ->
        Booking.userId b = userId ->
        (Booking.status b <> pending ->
         BookingRoutes.cancel userId id d = (Error 400 InvalidState, d))
        /\ (Booking.status b = pending ->
            let d' := update_booking_status cancelled id d in
            BookingRoutes.cancel userId id d = (Ok, d')
            /\ In (Booking.set_status cancelled b) (bookings d')
            /\ BookingRoutes.cancel userId id d' = (Error 400 InvalidState, d'))).
Proof.
  intros Hkey. split.
  - intros Hnone. unfold BookingRoutes.cancel.
    rewrite filter_no_key; [reflexivity |].
    intros b Hb. destruct (Booking.id b =? id) eqn:Ei; [| reflexivity].
    apply Z.eqb_eq in Ei. cbn. apply Z.eqb_neq. now apply Hnone.
  - intros b Hin Hid Hu. unfold BookingRoutes.cancel at 1 2.
    rewrite (cancel_lookup userId id d b Hkey Hin Hid).
    rewrite (proj2 (Z.eqb_eq _ _) Hu). split.
    + intros Hs. destruct (status_eqb (Booking.status b) pending) eqn:Es;
        [| reflexivity].
      apply status_eqb_eq in Es. contradiction.
    + intros Hs. cbn zeta. rewrite Hs. cbn [status_eqb negb].
      split; [reflexivity |]. split; [now apply update_status_at |].
      unfold BookingRoutes.cancel.
      rewrite (cancel_lookup userId id _ (Booking.set_status cancelled b)).
      * cbn. rewrite (proj2 (Z.eqb_eq _ _) Hu). reflexivity.
      * now rewrite update_status_keys.
      * now apply update_status_at.
      * exact Hid.
Qed.

Lemma cancel_outcomes_witness :
  let d := one_court [slot 1 1 20 "09:00" "10:00" pending] in
  let d' := one_court [slot 1 1 20 "09:00" "10:00" cancelled] in
  BookingRoutes.cancel 20 1 d = (Ok, d')
  /\ BookingRoutes.cancel 20 1 d' = (Error 400 InvalidState, d').
Proof.
  cbv zeta.
  destruct (cancel_outcomes 20 1 (one_court [slot 1 1 20 "09:00" "10:00" pending]))
    as [_ H].
  - repeat constructor. intros [].
  - destruct (H (slot 1 1 20 "09:00" "10:00" pending)) as [_ Hp];
      [now left | reflexivity | reflexivity |].
    destruct Hp as (H1 & _ & H2); [reflexivity |].
    split; [exact H1 | exact H2].
Defined.

(** C6, as stated, fails: a caller who is not the requester of an
    existing booking is answered [NotFound] (404), not [Unauthorized]. *)
Lemma cancel_by_stranger_is_not_found :
  BookingRoutes.cancel 30 1 (one_court [slot 1 1 20 "09:00" "10:00" pending])
  = (Error 404 NotFound, one_court [slot 1 1 20 "09:00" "10:00" pending]).
Proof.
  reflexivity.
Qed.

(** The joined row the confirm handler looks at. *)
Lemma select_with_owner_none (id : Z) (d : db) :
  (forall b, In b (bookings d) -> Booking.id b <> id) ->
  BookingRoutes.select_with_owner id d = [].
Proof.
  intros Hnone. unfold BookingRoutes.select_with_owner.
  rewrite (flat_map_if (fun b => Booking.id b =? id)).
  rewrite filter_no_key; [reflexivity |].
  intros b Hb. apply Z.eqb_neq. now apply Hnone.
Qed.

Lemma select_with_owner_row (id : Z) (d : db) (b : Booking.t) (p : Playground.t) :
  NoDup (map Booking.id (bookings d)) ->
  NoDup (map Playground.id (playgrounds d)) ->
  In b (bookings d) -> Booking.id b = id ->
  In p (playgrounds d) -> Playground.id p = Booking.playgroundId b ->
  BookingRoutes.select_with_owner id d = [(b, Playground.userId p)].
Proof.
  intros Kb Kp Hb Hid Hp Hpid. unfold BookingRoutes.select_with_owner.
  rewrite (flat_map_if (fun b => Booking.id b =? id)).
  rewrite (filter_unique_key Booking.id _ b id Kb Hb Hid). cbn.
  unfold select_playground.
  rewrite (filter_unique_key Playground.id _ p _ Kp Hp Hpid). reflexivity.
Qed.

(** C5 (amended): under the primary keys of [bookings] and [playgrounds],
    confirm fails with [Unauthorized] (403) when no booking has that id,
    and also when the caller does not own the booking's venue; when the
    caller owns the venue the booking's status becomes [confirmed]
    whatever it was before. *)
Theorem confirm_outcomes (userId id : Z) (d : db) :
  NoDup (map Booking.id (bookings d)) ->
  NoDup (map Playground.id (playgrounds d)) ->
  ((forall b, In b (bookings d) -> Booking.id b <> id) ->
   BookingRoutes.confirm userId id d = (Error 403 Unauthorized, d))
  /\ (forall b p, In b (bookings d) -> Booking.id b = id ->
        In p (playgrounds d) -> Playground.id p = Booking.playgroundId b ->
        (Playground.userId p <> userId ->
         BookingRoutes.confirm userId id d = (Error 403 Unauthorized, d))
        /\ (Playground.userId p = userId ->
            let d' := update_booking_status confirmed id d in
            BookingRoutes.confirm userId id d = (Ok, d')
            /\ In (Booking.set_status confirmed b) (bookings d'))).
Proof.
  intros Kb Kp. split.
  - intros Hnone. unfold BookingRoutes.confirm.
    now rewrite select_with_owner_none.
  - intros b p Hb Hid Hp Hpid. unfold BookingRoutes.confirm.
    rewrite (select_with_owner_row id d b p Kb Kp Hb Hid Hp Hpid). split.
    + intros Hne. apply Z.eqb_neq in Hne. now rewrite Hne.
    + intros He. cbn zeta. rewrite (proj2 (Z.eqb_eq _ _) He). cbn.
      split; [reflexivity | now apply update_status_at].
Qed.

Lemma confirm_outcomes_witness :
  BookingRoutes.confirm 10 1 (one_court [slot 1 1 20 "09:00" "10:00" cancelled])
  = (Ok, one_court [slot 1 1 20 "09:00" "10:00" confirmed])
  /\ BookingRoutes.confirm 30 1 (one_court [slot 1 1 20 "09:00" "10:00" pending])
     = (Error 403 Unauthorized, one_court [slot 1 1 20 "09:00" "10:00" pending]).
Proof.
  split.
  - destruct (confirm_outcomes 10 1
                (one_court [slot 1 1 20 "09:00" "10:00" cancelled])) as [_ H].
    + repeat constructor. intros [].
    + repeat constructor. intros [].
    + destruct (H (slot 1 1 20 "09:00" "10:00" cancelled) (court 1 10)) as [_ Ho];
        [now left | reflexivity | now left | reflexivity |].
      destruct Ho as [Hrun _]; [reflexivity | exact Hrun].
  - destruct (confirm_outcomes 30 1
                (one_court [slot 1 1 20 "09:00" "10:00" pending])) as [_ H].
    + repeat constructor. intros [].
    + repeat constructor. intros [].
    + destruct (H (slot 1 1 20 "09:00" "10:00" pending) (court 1 10)) as [Hn _];
        [now left | reflexivity | now left | reflexivity |].
      apply Hn. discriminate.
Defined.

(** C5, as stated, fails: confirming a booking that does not exist is
    answered [Unauthorized] (403), not [NotFound]. *)
Lemma confirm_missing_booking_is_unauthorized :
  BookingRoutes.confirm 10 7 (one_court [slot 1 1 20 "09:00" "10:00" pending])
  = (Error 403 Unauthorized, one_court [slot 1 1 20 "09:00" "10:00" pending])
  /\ forallb (fun b => negb (Booking.id b =? 7))
       (bookings (one_court [slot 1 1 20 "09:00" "10:00" pending])) = true.
Proof.
  split; reflexivity.
Qed.

(** ** The status of a booking over a run *)

(** C4 fails on the code: a pending booking cancelled by its requester is
    [cancelled]; a confirm by the venue's owner then makes it [confirmed],
    so [cancelled] is not terminal. *)
Theorem confirm_leaves_cancelled_state :
  let d0 := one_court [slot 1 1 20 "09:00" "10:00" pending] in
  handle (Cancel 20 1) d0
  = (Ok, one_court [slot 1 1 20 "09:00" "10:00" cancelled])
  /\ handle (Confirm 10 1) (one_court [slot 1 1 20 "09:00" "10:00" cancelled])
     = (Ok, one_court [slot 1 1 20 "09:00" "10:00" confirmed])
  /\ map Booking.status (bookings (run [Cancel 20 1; Confirm 10 1] d0))
     = [confirmed].
Proof.
  repeat split.
Qed.

(** ** Rows over a run *)

Lemma Forall2_refl {A : Type} (R : A -> A -> Prop) (l : list A) :
  (forall x, R x x) -> Forall2 R l l.
Proof.
  intros HR. induction l; constructor; auto.
Qed.

Lemma Forall2_trans {A : Type} (R : A -> A -> Prop) (l1 l2 l3 : list A) :
  (forall x y z, R x y -> R y z -> R x z) ->
  Forall2 R l1 l2 -> Forall2 R l2 l3 -> Forall2 R l1 l3.
Proof.
  intros HR H12. revert l3.
  induction H12 as [| x y l1 l2 Hxy _ IH]; intros l3 H23;
    inversion H23; subst; constructor; eauto.
Qed.

Lemma Forall2_map_if {A : Type} (R : A -> A -> Prop) (c : A -> bool)
    (f : A -> A) (l : list A) :
  (forall x, R x x) -> (forall x, R x (f x)) ->
  Forall2 R l (map (fun x => if c x then f x else x) l).
Proof.
  intros Hrefl Hf. induction l as [| a l IH]; cbn; constructor; auto.
  now destruct (c a).
Qed.

Lemma extends_refl {A : Type} (R : A -> A -> Prop) (l : list A) :
  (forall x, R x x) -> extends R l l.
Proof.
  intros HR. exists l, []. split; [now rewrite app_nil_r |].
  now apply Forall2_refl.
Qed.

Lemma extends_same_length {A : Type} (R : A -> A -> Prop) (l l' : list A) :
  Forall2 R l l' -> extends R l l'.
Proof.
  intros H. exists l', []. split; [now rewrite app_nil_r | assumption].
Qed.

Lemma extends_trans {A : Type} (R : A -> A -> Prop) (l1 l2 l3 : list A) :
  (forall x y z, R x y -> R y z -> R x z) ->
  extends R l1 l2 -> extends R l2 l3 -> extends R l1 l3.
Proof.
  intros HR (a & b & -> & Ha) (c & e & -> & Hc).
  apply Forall2_app_inv_l in Hc as (c1 & c2 & Hc1 & _ & ->).
  exists c1, (c2 ++ e). split; [now rewrite app_assoc |].
  eapply Forall2_trans; eassumption.
Qed.

Lemma extends_nth {A : Type} (R : A -> A -> Prop) (l l' : list A) (n : nat) (x : A) :
  extends R l l' -> nth_error l n = Some x ->
  exists x', nth_error l' n = Some x' /\ R x x'.
Proof.
  intros (l1 & l2 & -> & H). revert n.
  induction H as [| a b l l1 Hab _ IH]; intros n Hn.
  - destruct n; discriminate.
  - destruct n as [| n]; cbn in *.
    + injection Hn as <-. now exists b.
    + now apply IH.
Qed.

(** Every handler rewrites the rows of [playgrounds] in place, with
    [set_rating] or [incr_reports], and inserts none. *)
Section PlaygroundRows.

Variable R : Playground.t -> Playground.t -> Prop.
Hypothesis R_refl : forall p, R p p.
Hypothesis R_trans : forall p q r, R p q -> R q r -> R p r.
Hypothesis R_rating : forall t p, R p (Playground.set_rating t p).
Hypothesis R_incr : forall p, R p (Playground.incr_reports p).

Lemma update_playground_rating_rows (a id : Z) (d d' : db) :
  update_playground_rating a id d = Some d' ->
  Forall2 R (playgrounds d) (playgrounds d') /\ bookings d' = bookings d.
Proof.
  unfold update_playground_rating.
  destruct (existsb _ _ && negb _); [discriminate |].
  intros H. injection H as <-. cbn. split; [| reflexivity].
  now apply Forall2_map_if.
Qed.

Lemma update_booking_rating_playgrounds (r id : Z) (d d' : db) :
  update_booking_rating r id d = Some d' -> playgrounds d' = playgrounds d.
Proof.
  unfold update_booking_rating.
  destruct (existsb _ _ && negb _); [discriminate |].
  intros H. now injection H as <-.
Qed.

Lemma handle_playgrounds (r : request) (d : db) :
  Forall2 R (playgrounds d) (playgrounds (snd (handle r d))).
Proof.
  pose proof (Forall2_refl R (playgrounds d) R_refl) as Same.
  destruct r as [u body | u id | u id | u id body | u id body | u id reason]; cbn.
  - unfold BookingRoutes.create.
    destruct (falsy_num _ || _ || _ || _); [exact Same |].
    destruct (match select_playground _ d with _ :: _ => _ | [] => _ end);
      [exact Same |].
    destruct (as_date _); [| exact Same].
    destruct (0 <? _)%nat; [exact Same |].
    destruct (BookingRoutes.insert_booking u body d) as [[b d'] |] eqn:Ins;
      [| exact Same].
    apply insert_booking_some in Ins as (_ & _ & _ & Hp & _). cbn.
    now rewrite Hp.
  - unfold BookingRoutes.cancel.
    destruct (filter _ (bookings d)) as [| b bs]; [exact Same |].
    destruct (negb _); exact Same.
  - unfold BookingRoutes.confirm.
    destruct (BookingRoutes.select_with_owner id d) as [| [b o] rows];
      [exact Same |].
    destruct (negb _); exact Same.
  - unfold BookingRoutes.rating_handler.
    destruct (update_booking_rating _ _ d) as [d1 |] eqn:U1; [| exact Same].
    apply update_booking_rating_playgrounds in U1.
    destruct (update_playground_rating _ id d1) as [d2 |] eqn:U2; cbn.
    + apply update_playground_rating_rows in U2 as [U2 _]. now rewrite <- U1.
    + now rewrite U1.
  - unfold PlaygroundRoutes.rating_handler.
    destruct (update_playground_rating _ id d) as [d1 |] eqn:U1; [| exact Same].
    apply update_playground_rating_rows in U1 as [U1 _].
    destruct (update_booking_rating _ _ d1) as [d2 |] eqn:U2; cbn;
      [| exact U1].
    apply update_booking_rating_playgrounds in U2. now rewrite U2.
  - unfold PlaygroundRoutes.report.
    destruct (0 <? _)%nat; [exact Same |].
    unfold PlaygroundRoutes.insert_report.
    destruct (select_playground id d) as [| p0 ps0]; [exact Same |].
    destruct (existsb _ (playground_reports d) || negb _); [exact Same |].
    cbn [playgrounds with_playgrounds].
    assert (Forall2 R (playgrounds d)
              (map (fun p => if Playground.id p =? id
                             then Playground.incr_reports p else p)
                   (playgrounds d))) as Incr
      by now apply Forall2_map_if.
    destruct (select_playground id _) as [| p ps]; [exact Incr |].
    destruct (5 <=? Playground.reports p); exact Incr.
Qed.

Lemma run_playgrounds (rs : list request) (d : db) :
  Forall2 R (playgrounds d) (playgrounds (run rs d)).
Proof.
  revert d. induction rs as [| r rs IH]; intros d; cbn.
  - now apply Forall2_refl.
  - eapply Forall2_trans; [exact R_trans | apply handle_playgrounds | apply IH].
Qed.

End PlaygroundRows.

(** Every handler rewrites the rows of [bookings] in place, with
    [set_status] or [set_rating], or appends one row. *)
Section BookingRows.

Variable R : Booking.t -> Booking.t -> Prop.
Hypothesis R_refl : forall b, R b b.
Hypothesis R_trans : forall a b c, R a b -> R b c -> R a c.
Hypothesis R_status : forall s b, R b (Booking.set_status s b).
Hypothesis R_rating : forall r b, R b (Booking.set_rating r b).

Lemma update_booking_rating_rows (r id : Z) (d d' : db) :
  update_booking_rating r id d = Some d' ->
  Forall2 R (bookings d) (bookings d').
Proof.
  unfold update_booking_rating.
  destruct (existsb _ _ && negb _); [discriminate |].
  intros H. injection H as <-. cbn. now apply Forall2_map_if.
Qed.

Lemma update_booking_status_rows (s : booking_status) (id : Z) (d : db) :
  Forall2 R (bookings d) (bookings (update_booking_status s id d)).
Proof.
  unfold update_booking_status. cbn. now apply Forall2_map_if.
Qed.

Lemma update_playground_rating_bookings (a id : Z) (d d' : db) :
  update_playground_rating a id d = Some d' -> bookings d' = bookings d.
Proof.
  unfold update_playground_rating.
  destruct (existsb _ _ && negb _); [discriminate |].
  intros H. now injection H as <-.
Qed.

Lemma handle_bookings (r : request) (d : db) :
  extends R (bookings d) (bookings (snd (handle r d))).
Proof.
  pose proof (extends_refl R (bookings d) R_refl) as Same.
  destruct r as [u body | u id | u id | u id body | u id body | u id reason]; cbn.
  - unfold BookingRoutes.create.
    destruct (falsy_num _ || _ || _ || _); [exact Same |].
    destruct (match select_playground _ d with _ :: _ => _ | [] => _ end);
      [exact Same |].
    destruct (as_date _); [| exact Same].
    destruct (0 <? _)%nat; [exact Same |].
    destruct (BookingRoutes.insert_booking u body d) as [[b d'] |] eqn:Ins;
      [| exact Same].
    apply insert_booking_some in Ins as (_ & _ & Hb & _ & _). cbn.
    exists (bookings d), [b]. split; [exact Hb | now apply Forall2_refl].
  - unfold BookingRoutes.cancel.
    destruct (filter _ (bookings d)) as [| b bs]; [exact Same |].
    destruct (negb _); [exact Same |].
    apply extends_same_length, update_booking_status_rows.
  - unfold BookingRoutes.confirm.
    destruct (BookingRoutes.select_with_owner id d) as [| [b o] rows];
      [exact Same |].
    destruct (negb _); [exact Same |].
    apply extends_same_length, update_booking_status_rows.
  - unfold BookingRoutes.rating_handler.
    destruct (update_booking_rating _ _ d) as [d1 |] eqn:U1; [| exact Same].
    apply update_booking_rating_rows in U1.
    destruct (update_playground_rating _ id d1) as [d2 |] eqn:U2; cbn.
    + apply update_playground_rating_bookings in U2. rewrite U2.
      now apply extends_same_length.
    + now apply extends_same_length.
  - unfold PlaygroundRoutes.rating_handler.
    destruct (update_playground_rating _ id d) as [d1 |] eqn:U1; [| exact Same].
    apply update_playground_rating_bookings in U1.
    destruct (update_booking_rating _ _ d1) as [d2 |] eqn:U2; cbn.
    + apply update_booking_rating_rows in U2. rewrite <- U1.
      now apply extends_same_length.
    + now rewrite U1.
  - unfold PlaygroundRoutes.report.
    destruct (0 <? _)%nat; [exact Same |].
    unfold PlaygroundRoutes.insert_report.
    destruct (select_playground id d) as [| p0 ps0]; [exact Same |].
    destruct (existsb _ (playground_reports d) || negb _); [exact Same |].
    destruct (select_playground id _) as [| p ps]; [exact Same |].
    destruct (5 <=? Playground.reports p); exact Same.
Qed.

Lemma run_bookings (rs : list request) (d : db) :
  extends R (bookings d) (bookings (run rs d)).
Proof.
  revert d. induction rs as [| r rs IH]; intros d; cbn.
  - now apply extends_refl.
  - eapply extends_trans; [exact R_trans | apply handle_bookings | apply IH].
Qed.

End BookingRows.

(** ** Rounding *)

Lemma round_div_exact (k d : Z) : 0 < d -> round_div (k * d) d = k.
Proof.
  intros Hd. unfold round_div.
  destruct (0 <=? k * d) eqn:E.
  - symmetry. apply (Z.div_unique_pos _ _ _ d); lia.
  - apply Z.leb_gt in E.
    replace ((2 * - (k * d) + d) / (2 * d)) with (- k); [lia |].
    apply (Z.div_unique_pos _ _ _ d); lia.
Qed.

(** [round_div n d] is a nearest integer to [n / d]. *)
Lemma round_div_near (n d : Z) :
  0 < d -> 2 * Z.abs (round_div n d * d - n) <= d.
Proof.
  intros Hd. unfold round_div.
  destruct (0 <=? n) eqn:E.
  - pose proof (Z.div_mod (2 * n + d) (2 * d) ltac:(lia)) as Hq.
    pose proof (Z.mod_pos_bound (2 * n + d) (2 * d) ltac:(lia)) as Hr.
    lia.
  - pose proof (Z.div_mod (2 * - n + d) (2 * d) ltac:(lia)) as Hq.
    pose proof (Z.mod_pos_bound (2 * - n + d) (2 * d) ltac:(lia)) as Hr.
    lia.
Qed.

Lemma stored_average_none (id : Z) (bs : list Booking.t) :
  rated_ratings id bs = [] -> stored_average id bs = 0.
Proof.
  unfold stored_average. now intros ->.
Qed.

(** The stored value is the mean whenever the mean is a whole number of
    tenths. *)
Lemma stored_average_exact (id : Z) (bs : list Booking.t) (t : Z) :
  mean_in_tenths (rated_ratings id bs) t -> stored_average id bs = t.
Proof.
  unfold mean_in_tenths, stored_average.
  destruct (rated_ratings id bs) as [| r rs]; [easy |].
  set (n := Z.of_nat (List.length (r :: rs))). intros Hmean.
  assert (0 < n) as Hn by (subst n; cbn [List.length]; lia).
  replace (sum (r :: rs) * 10000) with (t * 1000 * n) by lia.
  rewrite (round_div_exact _ n Hn). apply round_div_exact. lia.
Qed.

(** In general it is within 0.05005 of the mean. *)
Lemma stored_average_near (id : Z) (bs : list Booking.t) :
  let rs := rated_ratings id bs in
  let n := Z.of_nat (List.length rs) in
  2 * Z.abs (1000 * (stored_average id bs * n) - 10000 * sum rs) <= 1001 * n.
Proof.
  cbv zeta. unfold stored_average.
  destruct (rated_ratings id bs) as [| r rs]; [cbn; lia |].
  set (n := Z.of_nat (List.length (r :: rs))). set (s := sum (r :: rs)).
  assert (0 < n) as Hn by (subst n; cbn [List.length]; lia).
  pose proof (round_div_near (s * 10000) n Hn) as H4.
  set (a := round_div (s * 10000) n) in *.
  pose proof (round_div_near a 1000 ltac:(lia)) as H1.
  set (t := round_div a 1000) in *.
  assert (2 * Z.abs ((t * 1000 - a) * n) <= 1000 * n) as H1n.
  { rewrite Z.abs_mul, (Z.abs_eq n) by lia. nia. }
  lia.
Qed.

(** ** Rating through the bookings router *)

Lemma bookings_rating_unfold (userId id : Z) (body : BookingRoutes.rating_body)
    (d : db) :
  BookingRoutes.rating_handler userId id body d
  = match update_booking_rating (BookingRoutes.rating body)
                                (BookingRoutes.bookingId body) d with
    | None => (Error 500 StorageError, d)
    | Some d1 =>
        let tenths := stored_average id (bookings d1) in
        if existsb (fun p => Playground.id p =? id) (playgrounds d1)
           && negb (in_decimal_3_1 tenths)
        then (Error 500 StorageError, d1)
        else (Ok, with_playgrounds
                    (map (fun p => if Playground.id p =? id
                                   then Playground.set_rating tenths p else p)
                         (playgrounds d1)) d1)
    end.
Proof.
  unfold BookingRoutes.rating_handler.
  destruct (update_booking_rating _ _ d) as [d1 |]; [| reflexivity].
  unfold update_playground_rating, select_avg_rating, stored_average.
  destruct (rated_ratings id (bookings d1)); cbv zeta;
    now destruct (existsb _ _ && negb _).
Qed.

Lemma update_booking_rating_some (r id : Z) (d d1 : db) :
  update_booking_rating r id d = Some d1 ->
  d1 = with_bookings (rate_rows r id (bookings d)) d.
Proof.
  unfold update_booking_rating.
  destruct (existsb _ _ && negb _); [discriminate |].
  intros H. now injection H as <-.
Qed.

Lemma rated_ratings_in (id r : Z) (bs : list Booking.t) (b : Booking.t) :
  In b bs -> Booking.playgroundId b = id -> Booking.rated b = true ->
  Booking.rating b = Some r -> In r (rated_ratings id bs).
Proof.
  intros Hin Hp Hr Hv. unfold rated_ratings. apply in_flat_map.
  exists b. split; [assumption |].
  rewrite (proj2 (Z.eqb_eq _ _) Hp), Hr, Hv. now left.
Qed.

(** C8 (amended): after every rating operation of the bookings router
    that completes, the stored rating of the venue named in the URL is the
    arithmetic mean of [rating] over that venue's bookings with
    [rated = true] and a non-null rating, taken after the booking update
    (so it counts the rating just set when that booking is the venue's),
    as the [decimal(3,1)] column keeps it: equal to the mean whenever the
    mean is a whole number of tenths, within 0.05005 of it otherwise, and
    0 when there is no such booking. *)
Theorem bookings_rating_stores_rounded_mean (userId id : Z)
    (body : BookingRoutes.rating_body) (d d' : db) :
  BookingRoutes.rating_handler userId id body d = (Ok, d') ->
  let rs := rated_ratings id (bookings d') in
  let n := Z.of_nat (List.length rs) in
  bookings d'
  = rate_rows (BookingRoutes.rating body) (BookingRoutes.bookingId body)
              (bookings d)
  /\ (forall b, In b (bookings d) ->
        Booking.id b = BookingRoutes.bookingId body ->
        Booking.playgroundId b = id ->
        In (BookingRoutes.rating body) rs)
  /\ (forall p, In p (playgrounds d') -> Playground.id p = id ->
        Playground.rating p = stored_average id (bookings d'))
  /\ (rs = [] -> stored_average id (bookings d') = 0)
  /\ (forall t, mean_in_tenths rs t -> stored_average id (bookings d') = t)
  /\ 2 * Z.abs (1000 * (stored_average id (bookings d') * n) - 10000 * sum rs)
     <= 1001 * n.
Proof.
  rewrite bookings_rating_unfold.
  destruct (update_booking_rating _ _ d) as [d1 |] eqn:U1; [| discriminate].
  apply update_booking_rating_some in U1. cbv zeta.
  destruct (existsb _ _ && negb _); [discriminate |].
  intros H. injection H as <-. cbn [bookings playgrounds with_playgrounds].
  subst d1. cbn [bookings playgrounds with_bookings].
  split; [reflexivity |]. split; [| split; [| split; [| split]]].
  - intros b Hb Hid Hp.
    apply (rated_ratings_in id _ _ (Booking.set_rating (BookingRoutes.rating body) b));
      try reflexivity; [| exact Hp].
    unfold rate_rows. apply in_map_iff. exists b.
    now rewrite (proj2 (Z.eqb_eq _ _) Hid).
  - intros p Hp Hid. apply in_map_iff in Hp as (q & Hq & _).
    destruct (Playground.id q =? id) eqn:E; [now subst p |].
    subst p. apply Z.eqb_neq in E. contradiction.
  - apply stored_average_none.
  - apply stored_average_exact.
  - apply stored_average_near.
Qed.

(** A venue whose rated bookings end up with ratings 5 and 3 is stored
    with rating 4.0. *)
Lemma bookings_rating_stores_rounded_mean_witness :
  BookingRoutes.rating_handler 20 1 (BookingRoutes.mkRating 3 2)
    (one_court [rated_slot 1 1 20 5; unrated_slot 2 1 20])
  = (Ok, mkDb [Playground.mk 1 10 0 40 true]
              [rated_slot 1 1 20 5; rated_slot 2 1 20 3] [] 3)
  /\ Playground.rating (Playground.mk 1 10 0 40 true)
     = stored_average 1 [rated_slot 1 1 20 5; rated_slot 2 1 20 3]
  /\ stored_average 1 [rated_slot 1 1 20 5; rated_slot 2 1 20 3] = 40.
Proof.
  assert (BookingRoutes.rating_handler 20 1 (BookingRoutes.mkRating 3 2)
            (one_court [rated_slot 1 1 20 5; unrated_slot 2 1 20])
          = (Ok, mkDb [Playground.mk 1 10 0 40 true]
                      [rated_slot 1 1 20 5; rated_slot 2 1 20 3] [] 3)) as Run
    by reflexivity.
  split; [exact Run |].
  destruct (bookings_rating_stores_rounded_mean _ _ _ _ _ Run)
    as (_ & _ & Hstored & _ & Hexact & _).
  split.
  - apply Hstored; [now left | reflexivity].
  - apply Hexact. reflexivity.
Defined.

(** C8, as stated, fails on both routers.  Through the bookings router a
    venue rated 5, 4 and 4 is stored with 4.3, which is not the mean 13/3;
    through the playgrounds router the average is taken before the booking
    is updated, so a venue rated 5 whose second booking is rated 3 is
    stored with 5.0 while its rated bookings are 5 and 3. *)
Lemma stored_rating_is_not_the_mean :
  (let d' := snd (BookingRoutes.rating_handler 20 1 (BookingRoutes.mkRating 4 3)
                    (one_court [rated_slot 1 1 20 5; rated_slot 2 1 21 4;
                                unrated_slot 3 1 22])) in
   map Playground.rating (playgrounds d') = [43]
   /\ rated_ratings 1 (bookings d') = [5; 4; 4]
   /\ ~ mean_in_tenths [5; 4; 4] 43)
  /\ (let d' := snd (PlaygroundRoutes.rating_handler 20 1
                       (BookingRoutes.mkRating 3 2)
                       (one_court [rated_slot 1 1 20 5; unrated_slot 2 1 20])) in
      fst (PlaygroundRoutes.rating_handler 20 1 (BookingRoutes.mkRating 3 2)
             (one_court [rated_slot 1 1 20 5; unrated_slot 2 1 20])) = Ok
      /\ map Playground.rating (playgrounds d') = [50]
      /\ rated_ratings 1 (bookings d') = [5; 3]
      /\ ~ mean_in_tenths [5; 3] 50).
Proof.
  cbv zeta. repeat split; try reflexivity; cbn; lia.
Qed.

(** C7 (amended): the rating operation checks neither the range of the
    rating, nor that the booking exists, nor whose it is, nor its [rated]
    flag.  For any integer rating that fits the [int] column it sets
    [rated = true] and the rating on the rows with the given id, whoever
    calls, and it answers with success as soon as the resulting average
    fits the venue's column.  Over any sequence of core operations a row
    keeps its place and its id, and a [rated] flag that is true stays
    true. *)
Theorem rating_is_unchecked (userId id : Z) (body : BookingRoutes.rating_body)
    (d : db) :
  in_int_range (BookingRoutes.rating body) = true ->
  let bs' := rate_rows (BookingRoutes.rating body) (BookingRoutes.bookingId body)
                       (bookings d) in
  bookings (snd (BookingRoutes.rating_handler userId id body d)) = bs'
  /\ (in_decimal_3_1 (stored_average id bs') = true ->
      fst (BookingRoutes.rating_handler userId id body d) = Ok)
  /\ forall rs,
       extends (fun b b' => Booking.id b' = Booking.id b
                            /\ (Booking.rated b = true -> Booking.rated b' = true))
               (bookings d) (bookings (run rs d)).
Proof.
  intros Hr. cbv zeta. rewrite bookings_rating_unfold.
  unfold update_booking_rating. rewrite Hr, andb_false_r.
  cbn [bookings playgrounds with_bookings].
  split; [| split].
  - now destruct (existsb _ _ && negb _).
  - intros ->. now rewrite andb_false_r.
  - intros rs. apply run_bookings.
    + now split.
    + intros a b c [Hab Rab] [Hbc Rbc]. split; [congruence | auto].
    + intros s b. now split.
    + intros r b. now split.
Qed.

Lemma rating_is_unchecked_witness :
  in_int_range 4 = true
  /\ BookingRoutes.rating_handler 20 1 (BookingRoutes.mkRating 4 1)
       (one_court [unrated_slot 1 1 20])
     = (Ok, mkDb [Playground.mk 1 10 0 40 true] [rated_slot 1 1 20 4] [] 2).
Proof.
  split; [reflexivity |].
  destruct (rating_is_unchecked 20 1 (BookingRoutes.mkRating 4 1)
              (one_court [unrated_slot 1 1 20])) as (Hrows & Hok & _);
    [reflexivity |].
  specialize (Hok eq_refl).
  destruct (BookingRoutes.rating_handler 20 1 (BookingRoutes.mkRating 4 1)
              (one_court [unrated_slot 1 1 20])) as [r d'] eqn:Run.
  cbn in Hok. subst r. rewrite <- Run. reflexivity.
Defined.

(** C7, as stated, fails: a rating of 7 sent by user 30 for booking 1,
    which belongs to user 20 and is already rated 2, succeeds and
    overwrites the rating; so does a rating for a booking that does not
    exist. *)
Lemma rating_succeeds_without_preconditions :
  BookingRoutes.rating_handler 30 1 (BookingRoutes.mkRating 7 1)
    (one_court [rated_slot 1 1 20 2])
  = (Ok, mkDb [Playground.mk 1 10 0 70 true] [rated_slot 1 1 20 7] [] 2)
  /\ BookingRoutes.rating_handler 30 1 (BookingRoutes.mkRating 3 99)
       (one_court [unrated_slot 1 1 20])
     = (Ok, one_court [unrated_slot 1 1 20]).
Proof.
  split; reflexivity.
Qed.

(** C10: in the rating operation of the bookings router the rows of
    [bookings] written are those whose id is the body's [bookingId], and
    the playground written is the one named in the URL: when the call
    completes, the rows of [playgrounds] with the URL's id receive the
    average recomputed over that playground's rated bookings, every other
    row and every other column is as before, and a call that fails
    writes no playground.  Nothing relates the two ids: there is a call,
    with a booking of court 2 rated through the URL of court 1, after
    which court 1 has gone from 0.0 to the 3.0 of its own rated booking
    and the booking's rating from 5 to 1, while court 2 still holds 5.0
    and the mean of its rated bookings is 1.0. *)
Theorem bookings_rating_writes_url_playground :
  (forall (userId id : Z) (body : BookingRoutes.rating_body) (d d' : db),
     BookingRoutes.rating_handler userId id body d = (Ok, d') ->
     let written := rate_rows (BookingRoutes.rating body)
                              (BookingRoutes.bookingId body) (bookings d) in
     bookings d' = written
     /\ playgrounds d'
        = map (fun p => if Playground.id p =? id
                        then Playground.set_rating (stored_average id written) p
                        else p)
              (playgrounds d)
     /\ playground_reports d' = playground_reports d
     /\ next_booking_id d' = next_booking_id d)
  /\ (forall (userId id : Z) (body : BookingRoutes.rating_body) (d : db),
        fst (BookingRoutes.rating_handler userId id body d) <> Ok ->
        playgrounds (snd (BookingRoutes.rating_handler userId id body d))
        = playgrounds d)
  /\ BookingRoutes.rating_handler 20 1 (BookingRoutes.mkRating 1 1)
       (two_courts [rated_slot 1 2 20 5; rated_slot 2 1 21 3])
     = (Ok, mkDb [Playground.mk 1 10 0 30 true; Playground.mk 2 11 0 50 true]
                 [rated_slot 1 2 20 1; rated_slot 2 1 21 3] [] 3)
  /\ Booking.playgroundId (rated_slot 1 2 20 5) = 2
  /\ stored_average 2 [rated_slot 1 2 20 1; rated_slot 2 1 21 3] = 10.
Proof.
  split; [| split; [| repeat split]].
  - intros userId id body d d'. rewrite bookings_rating_unfold.
    destruct (update_booking_rating _ _ d) as [d1 |] eqn:U1; [| discriminate].
    apply update_booking_rating_some in U1. subst d1. cbv zeta.
    destruct (existsb _ _ && negb _); [discriminate |].
    intros H. injection H as <-. now repeat split.
  - intros userId id body d. rewrite bookings_rating_unfold.
    destruct (update_booking_rating _ _ d) as [d1 |] eqn:U1; [| reflexivity].
    apply update_booking_rating_some in U1. subst d1. cbv zeta.
    destruct (existsb _ _ && negb _); [reflexivity |].
    intros H. now destruct H.
Qed.

(** ** Reporting a venue *)

Lemma unique_key_row {A : Type} (key : A -> Z) (l : list A) (x y : A) :
  NoDup (map key l) -> In x l -> In y l -> key x = key y -> x = y.
Proof.
  intros Hkey Hx Hy Hk.
  pose proof (filter_unique_key key l x (key x) Hkey Hx eq_refl) as Fx.
  assert (In y (filter (fun z => key z =? key x) l)) as Hin.
  { apply filter_In. split; [assumption |]. now apply Z.eqb_eq. }
  rewrite Fx in Hin. destruct Hin as [-> | []]. reflexivity.
Qed.

Lemma filter_id_map (f : Playground.t -> Playground.t) (id : Z)
    (ps : list Playground.t) :
  (forall p, Playground.id (f p) = Playground.id p) ->
  filter (fun p => Playground.id p =? id) (map f ps)
  = map f (filter (fun p => Playground.id p =? id) ps).
Proof.
  intros Hid. induction ps as [| p ps IH]; [reflexivity |].
  cbn. rewrite Hid, IH. now destruct (Playground.id p =? id).
Qed.

(** What the report handler does for a first report against an existing
    playground, [p] being the row its threshold test reads. *)
Lemma report_first (userId playgroundId : Z) (reason : string) (d : db)
    (p : Playground.t) (ps : list Playground.t) :
  select_playground playgroundId d = p :: ps ->
  (forall r, In r (playground_reports d) ->
     (Report.playgroundId r =? playgroundId) && (Report.userId r =? userId)
     = false) ->
  fits_text reason = true ->
  PlaygroundRoutes.report userId playgroundId reason d
  = (if 5 <=? Playground.reports p + 1 then Error 500 StorageError else Ok,
     mkDb (map (fun q => if Playground.id q =? playgroundId
                         then Playground.incr_reports q else q) (playgrounds d))
          (bookings d)
          (playground_reports d ++ [Report.mk playgroundId userId reason])
          (next_booking_id d)).
Proof.
  intros Sel Hnone Hfits.
  unfold PlaygroundRoutes.report, PlaygroundRoutes.insert_report.
  rewrite (filter_no_key _ _ Hnone). cbn [List.length Nat.ltb Nat.leb].
  rewrite Sel, Hfits.
  replace (existsb _ (playground_reports d)) with false.
  2:{ symmetry. apply not_true_is_false. intros H.
      apply existsb_exists in H as (r & Hr & Hm).
      rewrite (Hnone r Hr) in Hm. discriminate. }
  cbn [orb negb].
  unfold select_playground, with_playgrounds, PlaygroundRoutes.update_playground_isActive.
  cbn [playgrounds bookings playground_reports next_booking_id].
  rewrite filter_id_map.
  2:{ intros q. now destruct (Playground.id q =? playgroundId). }
  unfold select_playground in Sel. rewrite Sel. cbn [map].
  assert ((Playground.id p =? playgroundId) = true) as ->.
  { assert (In p (filter (fun q => Playground.id q =? playgroundId)
                         (playgrounds d))) as Hp by (rewrite Sel; now left).
    now apply filter_In in Hp. }
  cbn [Playground.reports Playground.incr_reports].
  now destruct (5 <=? Playground.reports p + 1).
Qed.

(** C9 fails on the code: with four reports stored against court 1, the
    report of a fifth user is stored and counted, and then the statement
    that should clear [isActive] is refused, since the table has no such
    column: the handler answers 500 and the court is as active as before,
    where the claim has it deactivated.  The reporter who tries again is
    told that the report is a duplicate, and a sixth reporter gets the
    same 500. *)
Theorem fifth_report_fails :
  let four := [Report.mk 1 21 "a"; Report.mk 1 22 "b";
               Report.mk 1 23 "c"; Report.mk 1 24 "d"] in
  let d := mkDb [Playground.mk 1 10 4 0 true] [] four 1 in
  let d' := mkDb [Playground.mk 1 10 5 0 true] []
                 (four ++ [Report.mk 1 25 "e"]) 1 in
  PlaygroundRoutes.report 25 1 "e" d = (Error 500 StorageError, d')
  /\ reported (Playground.mk 1 10 4 0 true) = Playground.mk 1 10 5 0 false
  /\ PlaygroundRoutes.report 25 1 "e" d' = (Error 400 DuplicateReport, d')
  /\ fst (PlaygroundRoutes.report 26 1 "f" d') = Error 500 StorageError.
Proof.
  repeat split.
Qed.

(** Under the primary key of [playgrounds]: a report by a user who has
    already reported the playground is answered [DuplicateReport] and
    writes nothing; a first report against an existing playground is
    stored and adds 1 to its [reports] in every case, and it is answered
    with success while the new count is below 5 and with a storage error
    (500) from the fifth report on, the report and the count staying
    written. *)
Theorem report_answers (userId playgroundId : Z) (reason : string) (d : db) :
  NoDup (map Playground.id (playgrounds d)) ->
  ((exists r, In r (playground_reports d)
              /\ Report.playgroundId r = playgroundId
              /\ Report.userId r = userId) ->
   PlaygroundRoutes.report userId playgroundId reason d
   = (Error 400 DuplicateReport, d))
  /\ (forall p, In p (playgrounds d) -> Playground.id p = playgroundId ->
        (forall r, In r (playground_reports d) ->
           Report.playgroundId r = playgroundId -> Report.userId r <> userId) ->
        fits_text reason = true ->
        PlaygroundRoutes.report userId playgroundId reason d
        = (if 5 <=? Playground.reports p + 1
           then Error 500 StorageError else Ok,
           mkDb (map (fun q => if Playground.id q =? playgroundId
                               then Playground.incr_reports q else q)
                     (playgrounds d))
                (bookings d)
                (playground_reports d
                   ++ [Report.mk playgroundId userId reason])
                (next_booking_id d))).
Proof.
  intros Hkey. split.
  - intros (r & Hr & Hp & Hu). unfold PlaygroundRoutes.report.
    replace (0 <? List.length _)%nat with true; [reflexivity |].
    symmetry. apply filter_nonempty_iff. exists r. split; [assumption |].
    apply andb_true_iff. split; now apply Z.eqb_eq.
  - intros p Hp Hid Hnew Hfits.
    apply (report_first userId playgroundId reason d p []); [| | exact Hfits].
    + unfold select_playground.
      now apply (filter_unique_key Playground.id).
    + intros r Hr. destruct (Report.playgroundId r =? playgroundId) eqn:E;
        [| reflexivity].
      apply Z.eqb_eq in E. cbn. apply Z.eqb_neq. now apply Hnew.
Qed.

Lemma report_answers_witness :
  PlaygroundRoutes.report 30 1 "noisy" (one_court [])
  = (Ok, mkDb [Playground.mk 1 10 1 0 true] [] [Report.mk 1 30 "noisy"] 1)
  /\ PlaygroundRoutes.report 25 1 "e"
       (mkDb [Playground.mk 1 10 4 0 true] []
          [Report.mk 1 21 "a"; Report.mk 1 22 "b";
           Report.mk 1 23 "c"; Report.mk 1 24 "d"] 1)
     = (Error 500 StorageError,
        mkDb [Playground.mk 1 10 5 0 true] []
          [Report.mk 1 21 "a"; Report.mk 1 22 "b";
           Report.mk 1 23 "c"; Report.mk 1 24 "d"; Report.mk 1 25 "e"] 1).
Proof.
  split.
  - destruct (report_answers 30 1 "noisy" (one_court [])) as [_ H].
    + repeat constructor. intros [].
    + apply (H (court 1 10)); [now left | reflexivity | intros r [] | reflexivity].
  - destruct (report_answers 25 1 "e"
                (mkDb [Playground.mk 1 10 4 0 true] []
                   [Report.mk 1 21 "a"; Report.mk 1 22 "b";
                    Report.mk 1 23 "c"; Report.mk 1 24 "d"] 1)) as [_ H].
    + repeat constructor. intros [].
    + apply (H (Playground.mk 1 10 4 0 true));
        [now left | reflexivity | | reflexivity].
      intros r [<- | [<- | [<- | [<- | []]]]] _; discriminate.
Defined.

(** ** The keys are kept *)

Lemma rate_rows_ids (r id : Z) (bs : list Booking.t) :
  map Booking.id (rate_rows r id bs) = map Booking.id bs.
Proof.
  unfold rate_rows. rewrite map_map. apply map_ext.
  intros b. now destruct (Booking.id b =? id).
Qed.

Lemma update_playground_rating_some (a id : Z) (d d' : db) :
  update_playground_rating a id d = Some d' ->
  d' = with_playgrounds
         (map (fun p => if Playground.id p =? id
                        then Playground.set_rating (round_div a 1000) p else p)
              (playgrounds d)) d.
Proof.
  unfold update_playground_rating.
  destruct (existsb _ _ && negb _); [discriminate |].
  intros H. now injection H as <-.
Qed.

Lemma keys_ok_same_ids (d d' : db) :
  map Playground.id (playgrounds d') = map Playground.id (playgrounds d) ->
  map Booking.id (bookings d') = map Booking.id (bookings d) ->
  next_booking_id d' = next_booking_id d ->
  keys_ok d -> keys_ok d'.
Proof.
  unfold keys_ok. now intros -> -> ->.
Qed.

Lemma playground_ids_kept (R := fun p p' => Playground.id p' = Playground.id p)
    (ps ps' : list Playground.t) :
  Forall2 R ps ps' -> map Playground.id ps' = map Playground.id ps.
Proof.
  induction 1 as [| p p' ps ps' Hp _ IH]; [reflexivity |].
  cbn. now rewrite Hp, IH.
Qed.

Lemma handle_playground_ids (r : request) (d : db) :
  map Playground.id (playgrounds (snd (handle r d)))
  = map Playground.id (playgrounds d).
Proof.
  apply playground_ids_kept, handle_playgrounds; reflexivity.
Qed.

(** Ids and counter of [bookings] after a request: unchanged, or one row
    appended under the counter's value. *)
Lemma handle_booking_ids (r : request) (d : db) :
  let d' := snd (handle r d) in
  (map Booking.id (bookings d') = map Booking.id (bookings d)
   /\ next_booking_id d' = next_booking_id d)
  \/ (map Booking.id (bookings d')
      = map Booking.id (bookings d) ++ [next_booking_id d]
      /\ next_booking_id d' = next_booking_id d + 1).
Proof.
  cbv zeta.
  destruct r as [u body | u id | u id | u id body | u id body | u id reason]; cbn.
  - unfold BookingRoutes.create.
    destruct (falsy_num _ || _ || _ || _); [now left |].
    destruct (match select_playground _ d with _ :: _ => _ | [] => _ end);
      [now left |].
    destruct (as_date _); [| now left].
    destruct (0 <? _)%nat; [now left |].
    destruct (BookingRoutes.insert_booking u body d) as [[b d'] |] eqn:Ins;
      [| now left].
    apply insert_booking_row in Ins as (day & ts & te & _ & _ & _ & -> & -> & _).
    right. cbn. now rewrite map_app.
  - left. unfold BookingRoutes.cancel.
    destruct (filter _ (bookings d)) as [| b bs]; [now split |].
    destruct (negb _); [now split |].
    split; [apply update_status_keys | reflexivity].
  - left. unfold BookingRoutes.confirm.
    destruct (BookingRoutes.select_with_owner id d) as [| [b o] rows];
      [now split |].
    destruct (negb _); [now split |].
    split; [apply update_status_keys | reflexivity].
  - left. unfold BookingRoutes.rating_handler.
    destruct (update_booking_rating _ _ d) as [d1 |] eqn:U1; [| now split].
    apply update_booking_rating_some in U1. subst d1.
    destruct (update_playground_rating _ id _) as [d2 |] eqn:U2; cbn.
    + apply update_playground_rating_some in U2. subst d2. cbn.
      split; [apply rate_rows_ids | reflexivity].
    + split; [apply rate_rows_ids | reflexivity].
  - left. unfold PlaygroundRoutes.rating_handler.
    destruct (update_playground_rating _ id d) as [d1 |] eqn:U1; [| now split].
    apply update_playground_rating_some in U1. subst d1.
    destruct (update_booking_rating _ _ _) as [d2 |] eqn:U2; cbn.
    + apply update_booking_rating_some in U2. subst d2. cbn.
      split; [apply rate_rows_ids | reflexivity].
    + now split.
  - left. unfold PlaygroundRoutes.report.
    destruct (0 <? _)%nat; [now split |].
    unfold PlaygroundRoutes.insert_report.
    destruct (select_playground id d) as [| p0 ps0]; [now split |].
    destruct (existsb _ (playground_reports d) || negb _); [now split |].
    destruct (select_playground id _) as [| p ps]; [now split |].
    destruct (5 <=? Playground.reports p); now split.
Qed.

(** Every core operation keeps the primary keys and the counter ahead of
    the stored ids, so every state reached from the empty database (or
    from any state with these properties) has them. *)
Theorem handle_keeps_keys (r : request) (d : db) :
  keys_ok d -> keys_ok (snd (handle r d)).
Proof.
  intros (Kp & Kb & Hnext).
  pose proof (handle_playground_ids r d) as Hp.
  destruct (handle_booking_ids r d) as [[Hb Hn] | [Hb Hn]].
  - apply (keys_ok_same_ids d); auto. now repeat split.
  - unfold keys_ok. rewrite Hp, Hb, Hn. split; [exact Kp |]. split.
    + apply NoDup_app; [exact Kb | repeat constructor; intros [] |].
      intros i Hi [<- | []]. rewrite Forall_forall in Hnext.
      specialize (Hnext _ Hi). lia.
    + apply Forall_app. split.
      * eapply Forall_impl; [| exact Hnext]. cbn. intros. lia.
      * repeat constructor. lia.
Qed.

Lemma handle_keeps_keys_witness :
  keys_ok (one_court [])
  /\ keys_ok (snd (handle (RequestBooking 20 (ask "09:00" "10:00")) (one_court []))).
Proof.
  assert (keys_ok (one_court [])) as K.
  { repeat split; repeat constructor. intros []. }
  split; [exact K | now apply handle_keeps_keys].
Defined.

(** ** Status moves *)

Lemma Forall2_map_in {A : Type} (R : A -> A -> Prop) (f : A -> A) (l : list A) :
  (forall x, In x l -> R x (f x)) -> Forall2 R l (map f l).
Proof.
  induction l as [| a l IH]; intros H; cbn; constructor.
  - apply H. now left.
  - apply IH. intros x Hx. apply H. now right.
Qed.

(** Apart from confirm, a core operation leaves the status of every
    stored booking as it was or takes it from [pending] to [cancelled]. *)
Theorem status_moves_without_confirm (r : request) (d : db) :
  NoDup (map Booking.id (bookings d)) ->
  (forall u i, r <> Confirm u i) ->
  extends (fun b b' => Booking.status b' = Booking.status b
                       \/ (Booking.status b = pending
                           /\ Booking.status b' = cancelled))
          (bookings d) (bookings (snd (handle r d))).
Proof.
  intros Hkey Hr.
  set (R := fun b b' => Booking.status b' = Booking.status b
                        \/ (Booking.status b = pending
                            /\ Booking.status b' = cancelled)).
  assert (forall b, R b b) as R_refl by (intros b; now left).
  assert (forall x b, R b (Booking.set_rating x b)) as R_rating
    by (intros x b; now left).
  pose proof (extends_refl R (bookings d) R_refl) as Same.
  destruct r as [u body | u id | u id | u id body | u id body | u id reason]; cbn.
  - unfold BookingRoutes.create.
    destruct (falsy_num _ || _ || _ || _); [exact Same |].
    destruct (match select_playground _ d with _ :: _ => _ | [] => _ end);
      [exact Same |].
    destruct (as_date _); [| exact Same].
    destruct (0 <? _)%nat; [exact Same |].
    destruct (BookingRoutes.insert_booking u body d) as [[b d'] |] eqn:Ins;
      [| exact Same].
    apply insert_booking_some in Ins as (_ & _ & Hb & _ & _). cbn.
    exists (bookings d), [b]. split; [exact Hb | now apply Forall2_refl].
  - unfold BookingRoutes.cancel.
    destruct (filter _ (bookings d)) as [| b bs] eqn:F; [exact Same |].
    destruct (status_eqb (Booking.status b) pending) eqn:Es; [| exact Same].
    apply status_eqb_eq in Es. cbn.
    assert (In b (bookings d) /\ Booking.id b = id) as [Hb Hid].
    { assert (In b (filter (fun b => (Booking.id b =? id)
                                     && (Booking.userId b =? u)) (bookings d)))
        as Hin by (rewrite F; now left).
      apply filter_In in Hin as [Hin Hm]. apply andb_true_iff in Hm as [Hm _].
      apply Z.eqb_eq in Hm. now split. }
    apply extends_same_length. apply Forall2_map_in. intros x Hx.
    destruct (Booking.id x =? id) eqn:E; [| now left].
    apply Z.eqb_eq in E.
    rewrite (unique_key_row Booking.id (bookings d) x b Hkey Hx Hb) by congruence.
    right. now split.
  - now destruct (Hr u id).
  - unfold BookingRoutes.rating_handler.
    destruct (update_booking_rating _ _ d) as [d1 |] eqn:U1; [| exact Same].
    apply (update_booking_rating_rows R R_refl R_rating) in U1.
    destruct (update_playground_rating _ id d1) as [d2 |] eqn:U2; cbn.
    + apply update_playground_rating_bookings in U2. rewrite U2.
      now apply extends_same_length.
    + now apply extends_same_length.
  - unfold PlaygroundRoutes.rating_handler.
    destruct (update_playground_rating _ id d) as [d1 |] eqn:U1; [| exact Same].
    apply update_playground_rating_bookings in U1.
    destruct (update_booking_rating _ _ d1) as [d2 |] eqn:U2; cbn.
    + apply (update_booking_rating_rows R R_refl R_rating) in U2.
      rewrite <- U1. now apply extends_same_length.
    + now rewrite U1.
  - unfold PlaygroundRoutes.report.
    destruct (0 <? _)%nat; [exact Same |].
    unfold PlaygroundRoutes.insert_report.
    destruct (select_playground id d) as [| p0 ps0]; [exact Same |].
    destruct (existsb _ (playground_reports d) || negb _); [exact Same |].
    destruct (select_playground id _) as [| p ps]; [exact Same |].
    destruct (5 <=? Playground.reports p); exact Same.
Qed.

Lemma status_moves_without_confirm_witness :
  extends (fun b b' => Booking.status b' = Booking.status b
                       \/ (Booking.status b = pending
                           /\ Booking.status b' = cancelled))
          (bookings (one_court [slot 1 1 20 "09:00" "10:00" pending]))
          (bookings (snd (handle (Cancel 20 1)
                            (one_court [slot 1 1 20 "09:00" "10:00" pending])))).
Proof.
  apply status_moves_without_confirm.
  - repeat constructor. intros [].
  - discriminate.
Defined.

(** ** Rating through the playgrounds router *)

(** The rating operation of the playgrounds router stores the average of
    the venue's rated bookings as they were before the booking named in
    the body is updated; the rating just sent is not part of it. *)
Theorem playgrounds_rating_stores_previous_mean (userId id : Z)
    (body : BookingRoutes.rating_body) (d d' : db) :
  PlaygroundRoutes.rating_handler userId id body d = (Ok, d') ->
  bookings d'
  = rate_rows (BookingRoutes.rating body) (BookingRoutes.bookingId body)
              (bookings d)
  /\ forall p, In p (playgrounds d') -> Playground.id p = id ->
       Playground.rating p = stored_average id (bookings d).
Proof.
  unfold PlaygroundRoutes.rating_handler.
  destruct (update_playground_rating _ id d) as [d1 |] eqn:U1; [| discriminate].
  destruct (update_booking_rating _ _ d1) as [d2 |] eqn:U2; [| discriminate].
  intros H. injection H as <-.
  apply update_booking_rating_some in U2. subst d2.
  apply update_playground_rating_some in U1. subst d1. cbn. split; [reflexivity |].
  intros p Hp Hid. apply in_map_iff in Hp as (q & Hq & _).
  destruct (Playground.id q =? id) eqn:E.
  - subst p. cbn. unfold select_avg_rating, stored_average.
    now destruct (rated_ratings id (bookings d)).
  - subst p. apply Z.eqb_neq in E. contradiction.
Qed.

Lemma playgrounds_rating_stores_previous_mean_witness :
  PlaygroundRoutes.rating_handler 20 1 (BookingRoutes.mkRating 3 2)
    (one_court [rated_slot 1 1 20 5; unrated_slot 2 1 20])
  = (Ok, mkDb [Playground.mk 1 10 0 50 true]
              [rated_slot 1 1 20 5; rated_slot 2 1 20 3] [] 3)
  /\ Playground.rating (Playground.mk 1 10 0 50 true)
     = stored_average 1 [rated_slot 1 1 20 5; unrated_slot 2 1 20].
Proof.
  assert (PlaygroundRoutes.rating_handler 20 1 (BookingRoutes.mkRating 3 2)
            (one_court [rated_slot 1 1 20 5; unrated_slot 2 1 20])
          = (Ok, mkDb [Playground.mk 1 10 0 50 true]
                      [rated_slot 1 1 20 5; rated_slot 2 1 20 3] [] 3)) as Run
    by reflexivity.
  split; [exact Run |].
  destruct (playgrounds_rating_stores_previous_mean _ _ _ _ _ Run) as [_ H].
  apply H; [now left | reflexivity].
Defined.

(** ** Self-booking *)

(** A request with all its fields made by the owner of the venue is
    answered [SelfBookingNotAllowed] whatever the table of bookings holds,
    and nothing is written. *)
Theorem create_own_playground (userId : Z) (body : BookingRoutes.create_body)
    (d : db) :
  missing_fields body = false ->
  owns userId (BookingRoutes.playgroundId body) d = true ->
  BookingRoutes.create userId body d = (Error 400 SelfBookingNotAllowed, d).
Proof.
  unfold missing_fields, owns, BookingRoutes.create. now intros -> ->.
Qed.

Lemma create_own_playground_witness :
  BookingRoutes.create 10 (ask "09:00" "10:00") (one_court [])
  = (Error 400 SelfBookingNotAllowed, one_court []).
Proof.
  apply create_own_playground; reflexivity.
Defined.

(** ** What a request writes, table by table *)

(** The rows of [bookings] after a core request: as they were, with one
    status update, with one rating update, or with the created row
    appended. *)
Lemma handle_bookings_cases (r : request) (d : db) :
  let d' := snd (handle r d) in
  bookings d' = bookings d
  \/ (exists u i, r = Cancel u i
                  /\ fst (handle r d) = Ok
                  /\ bookings d' = bookings (update_booking_status cancelled i d))
  \/ (exists u i, r = Confirm u i
                  /\ fst (handle r d) = Ok
                  /\ bookings d' = bookings (update_booking_status confirmed i d))
  \/ (exists x i, bookings d' = rate_rows x i (bookings d))
  \/ (exists u body b, r = RequestBooking u body
                       /\ BookingRoutes.create u body d = (Created b, d')
                       /\ bookings d' = bookings d ++ [b]).
Proof.
  cbv zeta.
  destruct r as [u body | u id | u id | u id body | u id body | u id reason]; cbn.
  - destruct (BookingRoutes.create u body d) as [[b | | c k] d'] eqn:Run.
    + do 4 right. exists u, body, b.
      assert (bookings d' = bookings d ++ [b]) as Hb.
      { unfold BookingRoutes.create in Run.
        destruct (falsy_num _ || _ || _ || _); [discriminate |].
        destruct (match select_playground _ d with _ :: _ => _ | [] => _ end);
          [discriminate |].
        destruct (as_date _); [| discriminate].
        destruct (0 <? _)%nat; [discriminate |].
        destruct (BookingRoutes.insert_booking u body d) as [[b0 d0] |] eqn:Ins;
          [| discriminate].
        injection Run as <- <-.
        now apply insert_booking_some in Ins as (_ & _ & Hb & _ & _). }
      rewrite Run. cbn. now repeat split.
    + left. unfold BookingRoutes.create in Run.
      destruct (falsy_num _ || _ || _ || _); [discriminate |].
      destruct (match select_playground _ d with _ :: _ => _ | [] => _ end);
        [discriminate |].
      destruct (as_date _); [| discriminate].
      destruct (0 <? _)%nat; [discriminate |].
      destruct (BookingRoutes.insert_booking u body d) as [[b0 d0] |];
        discriminate.
    + left. unfold BookingRoutes.create in Run.
      destruct (falsy_num _ || _ || _ || _); [now injection Run as _ _ <- |].
      destruct (match select_playground _ d with _ :: _ => _ | [] => _ end);
        [now injection Run as _ _ <- |].
      destruct (as_date _); [| now injection Run as _ _ <-].
      destruct (0 <? _)%nat; [now injection Run as _ _ <- |].
      destruct (BookingRoutes.insert_booking u body d) as [[b0 d0] |];
        [discriminate | now injection Run as _ _ <-].
  - unfold BookingRoutes.cancel.
    destruct (filter _ (bookings d)) as [| b bs]; [now left |].
    destruct (negb _); [now left |].
    right. left. now exists u, id.
  - unfold BookingRoutes.confirm.
    destruct (BookingRoutes.select_with_owner id d) as [| [b o] rows];
      [now left |].
    destruct (negb _); [now left |].
    right. right. left. now exists u, id.
  - unfold BookingRoutes.rating_handler.
    destruct (update_booking_rating _ _ d) as [d1 |] eqn:U1; [| now left].
    apply update_booking_rating_some in U1. subst d1.
    do 3 right. left.
    exists (BookingRoutes.rating body), (BookingRoutes.bookingId body).
    destruct (update_playground_rating _ id _) as [d2 |] eqn:U2; cbn;
      [| reflexivity].
    apply update_playground_rating_some in U2. subst d2. reflexivity.
  - unfold PlaygroundRoutes.rating_handler.
    destruct (update_playground_rating _ id d) as [d1 |] eqn:U1; [| now left].
    apply update_playground_rating_some in U1. subst d1.
    destruct (update_booking_rating _ _ _) as [d2 |] eqn:U2; cbn; [| now left].
    apply update_booking_rating_some in U2. subst d2.
    do 3 right. left.
    now exists (BookingRoutes.rating body), (BookingRoutes.bookingId body).
  - left. unfold PlaygroundRoutes.report.
    destruct (0 <? _)%nat; [reflexivity |].
    unfold PlaygroundRoutes.insert_report.
    destruct (select_playground id d) as [| p0 ps0]; [reflexivity |].
    destruct (existsb _ (playground_reports d) || negb _); [reflexivity |].
    destruct (select_playground id _) as [| p ps]; [reflexivity |].
    destruct (5 <=? Playground.reports p); reflexivity.
Qed.

(** The rows of [playgrounds] and of [playground_reports] after a core
    request: no report added and at most one rating written, or the
    writes of a report that went through. *)
Lemma handle_reports_cases (r : request) (d : db) :
  let d' := snd (handle r d) in
  (playground_reports d' = playground_reports d
   /\ (playgrounds d' = playgrounds d
       \/ exists t i,
            playgrounds d'
            = map (fun p => if Playground.id p =? i
                            then Playground.set_rating t p else p)
                  (playgrounds d)))
  \/ (exists u pid reason,
        r = ReportVenue u pid reason
        /\ select_playground pid d <> []
        /\ (forall x, In x (playground_reports d) ->
              (Report.playgroundId x =? pid) && (Report.userId x =? u) = false)
        /\ playground_reports d'
           = playground_reports d ++ [Report.mk pid u reason]
        /\ playgrounds d'
           = map (fun p => if Playground.id p =? pid
                           then Playground.incr_reports p else p)
                 (playgrounds d)).
Proof.
  cbv zeta.
  destruct r as [u body | u id | u id | u id body | u id body | u id reason]; cbn.
  - left. unfold BookingRoutes.create.
    destruct (falsy_num _ || _ || _ || _); [now split; [| left] |].
    destruct (match select_playground _ d with _ :: _ => _ | [] => _ end);
      [now split; [| left] |].
    destruct (as_date _); [| now split; [| left]].
    destruct (0 <? _)%nat; [now split; [| left] |].
    destruct (BookingRoutes.insert_booking u body d) as [[b d'] |] eqn:Ins;
      [| now split; [| left]].
    apply insert_booking_row in Ins as (day & ts & te & _ & _ & _ & -> & -> & _).
    now split; [| left].
  - left. unfold BookingRoutes.cancel.
    destruct (filter _ (bookings d)) as [| b bs]; [now split; [| left] |].
    destruct (negb _); now split; [| left].
  - left. unfold BookingRoutes.confirm.
    destruct (BookingRoutes.select_with_owner id d) as [| [b o] rows];
      [now split; [| left] |].
    destruct (negb _); now split; [| left].
  - left. unfold BookingRoutes.rating_handler.
    destruct (update_booking_rating _ _ d) as [d1 |] eqn:U1;
      [| now split; [| left]].
    apply update_booking_rating_some in U1. subst d1.
    destruct (update_playground_rating _ id _) as [d2 |] eqn:U2; cbn;
      [| now split; [| left]].
    apply update_playground_rating_some in U2. subst d2. cbn.
    split; [reflexivity |]. right. now eexists _, id.
  - left. unfold PlaygroundRoutes.rating_handler.
    destruct (update_playground_rating _ id d) as [d1 |] eqn:U1;
      [| now split; [| left]].
    apply update_playground_rating_some in U1. subst d1.
    destruct (update_booking_rating _ _ _) as [d2 |] eqn:U2; cbn.
    + apply update_booking_rating_some in U2. subst d2. cbn.
      split; [reflexivity |]. right. now eexists _, id.
    + split; [reflexivity |]. right. now eexists _, id.
  - unfold PlaygroundRoutes.report.
    destruct (0 <? List.length _)%nat eqn:Dup; [left; now split; [| left] |].
    unfold PlaygroundRoutes.insert_report.
    destruct (select_playground id d) as [| p0 ps0] eqn:Sel;
      [left; now split; [| left] |].
    destruct (existsb _ (playground_reports d) || negb _) eqn:Ex;
      [left; now split; [| left] |].
    apply orb_false_iff in Ex as [Ex _].
    right. exists u, id, reason.
    split; [reflexivity |].
    split; [change (select_playground id d <> []); rewrite Sel; discriminate |].
    split.
    { intros x Hx. apply not_true_is_false. intros Hm.
      apply not_true_iff_false in Ex. apply Ex. apply existsb_exists.
      now exists x. }
    unfold select_playground, PlaygroundRoutes.update_playground_isActive.
    cbn [playgrounds with_playgrounds].
    destruct (filter _ (map _ (playgrounds d))) as [| p ps]; [now split |].
    destruct (5 <=? Playground.reports p); now split.
Qed.

Lemma select_playground_in (id : Z) (d : db) :
  select_playground id d <> [] <-> In id (map Playground.id (playgrounds d)).
Proof.
  unfold select_playground. split.
  - destruct (filter _ (playgrounds d)) as [| p ps] eqn:F; [easy |].
    intros _.
    assert (In p (filter (fun p => Playground.id p =? id) (playgrounds d))) as Hp
      by (rewrite F; now left).
    apply filter_In in Hp as [Hp E]. apply Z.eqb_eq in E.
    rewrite <- E. now apply in_map.
  - intros Hin. apply in_map_iff in Hin as (p & Hid & Hp).
    intros F.
    assert (In p (filter (fun p => Playground.id p =? id) (playgrounds d))) as Hf
      by (apply filter_In; split; [assumption | now apply Z.eqb_eq]).
    now rewrite F in Hf.
Qed.

(** The row a successful create inserts, and the tests it went through. *)
Lemma create_created (userId : Z) (body : BookingRoutes.create_body)
    (d : db) (b : Booking.t) (d' : db) :
  BookingRoutes.create userId body d = (Created b, d') ->
  (exists day,
     as_date (BookingRoutes.date body) = Some day
     /\ b = Booking.mk (next_booking_id d) (BookingRoutes.playgroundId body)
               userId day (BookingRoutes.timeStart body)
               (BookingRoutes.timeEnd body) pending false None)
  /\ d' = mkDb (playgrounds d) (bookings d ++ [b]) (playground_reports d)
               (next_booking_id d + 1)
  /\ filter (BookingRoutes.slot_taken body) (bookings d) = []
  /\ select_playground (BookingRoutes.playgroundId body) d <> []
  /\ owns userId (BookingRoutes.playgroundId body) d = false.
Proof.
  unfold BookingRoutes.create, owns.
  destruct (falsy_num _ || _ || _ || _); [discriminate |].
  destruct (match select_playground _ d with _ :: _ => _ | [] => _ end);
    [discriminate |].
  destruct (as_date (BookingRoutes.date body)) as [day |] eqn:Day;
    [| discriminate].
  destruct (filter (BookingRoutes.slot_taken body) (bookings d)) eqn:F;
    [| discriminate].
  cbn [List.length Nat.ltb Nat.leb].
  destruct (BookingRoutes.insert_booking userId body d) as [[b0 d0] |] eqn:Ins;
    [| discriminate].
  intros H. injection H as <- <-.
  apply insert_booking_row in Ins
    as (day' & ts & te & Hd & Hs & He & -> & -> & Sel).
  unfold as_varchar5 in Hs, He.
  destruct (utf8_length (BookingRoutes.timeStart body) <=? 5)%nat;
    [| discriminate].
  destruct (utf8_length (BookingRoutes.timeEnd body) <=? 5)%nat;
    [| discriminate].
  injection Hs as <-. injection He as <-.
  rewrite Day in Hd. injection Hd as <-.
  repeat split; [| exact Sel]. now exists day.
Qed.

(** What the delete handler leaves behind. *)
Lemma delete_cases (userId id : Z) (d : db) :
  let d' := snd (PlaygroundAdmin.delete userId id d) in
  (fst (PlaygroundAdmin.delete userId id d) <> Ok /\ d' = d)
  \/ (fst (PlaygroundAdmin.delete userId id d) = Ok
      /\ d' = with_playgrounds
                (filter (fun p => negb ((Playground.id p =? id)
                                        && (Playground.userId p =? userId)))
                        (playgrounds d)) d
      /\ (forall b, In b (bookings d) -> Booking.playgroundId b <> id)
      /\ (forall r, In r (playground_reports d) -> Report.playgroundId r <> id)).
Proof.
  cbv zeta. unfold PlaygroundAdmin.delete, PlaygroundAdmin.delete_playground.
  destruct (filter _ (playgrounds d)) as [| p ps] eqn:F;
    [left; now split |].
  assert (existsb (fun p => (Playground.id p =? id)
                            && (Playground.userId p =? userId))
                  (playgrounds d) = true) as ->.
  { apply existsb_exists. exists p.
    assert (In p (filter (fun p => (Playground.id p =? id)
                                   && (Playground.userId p =? userId))
                         (playgrounds d))) as Hp by (rewrite F; now left).
    now apply filter_In in Hp. }
  cbn [andb].
  destruct (existsb _ (bookings d)) eqn:Eb; [left; now split |].
  destruct (existsb _ (playground_reports d)) eqn:Er; [left; now split |].
  right. cbn. repeat split.
  - intros b Hb E. apply not_true_iff_false in Eb. apply Eb.
    apply existsb_exists. exists b. split; [assumption | now apply Z.eqb_eq].
  - intros r Hr E. apply not_true_iff_false in Er. apply Er.
    apply existsb_exists. exists r. split; [assumption | now apply Z.eqb_eq].
Qed.

(** ** Referential integrity *)

Lemma rewritten_rows_reference (f : Booking.t -> Booking.t) (bs : list Booking.t)
    (ids : list Z) :
  (forall b, Booking.playgroundId (f b) = Booking.playgroundId b) ->
  (forall b, In b bs -> In (Booking.playgroundId b) ids) ->
  forall b, In b (map f bs) -> In (Booking.playgroundId b) ids.
Proof.
  intros Hf Hbs b Hb. apply in_map_iff in Hb as (a & <- & Ha).
  rewrite Hf. now apply Hbs.
Qed.

Lemma step_keeps_references (o : operation) (d : db) :
  references_ok d -> references_ok (snd (step o d)).
Proof.
  intros [Hb Hr]. destruct o as [r | u id]; cbn [step].
  - unfold references_ok. rewrite (handle_playground_ids r d). split.
    + destruct (handle_bookings_cases r d)
        as [E | [(u & i & _ & _ & E) | [(u & i & _ & _ & E)
           | [(x & i & E) | (u & body & b & _ & Run & E)]]]]; rewrite E.
      * exact Hb.
      * apply rewritten_rows_reference; [| exact Hb].
        intros b. now destruct (Booking.id b =? i).
      * apply rewritten_rows_reference; [| exact Hb].
        intros b. now destruct (Booking.id b =? i).
      * apply rewritten_rows_reference; [| exact Hb].
        intros b. now destruct (Booking.id b =? i).
      * intros a Ha. apply in_app_or in Ha as [Ha | [<- | []]]; [now apply Hb |].
        apply create_created in Run as ((day & _ & ->) & _ & _ & Sel & _). cbn.
        now apply select_playground_in.
    + destruct (handle_reports_cases r d)
        as [[E _] | (u & pid & reason & _ & Sel & _ & E & _)]; rewrite E.
      * exact Hr.
      * intros a Ha. apply in_app_or in Ha as [Ha | [<- | []]]; [now apply Hr |].
        cbn. now apply select_playground_in.
  - destruct (delete_cases u id d) as [[_ E] | (_ & E & Nb & Nr)];
      rewrite E; [now split |].
    assert (forall i, i <> id -> In i (map Playground.id (playgrounds d)) ->
              In i (map Playground.id
                      (filter (fun p => negb ((Playground.id p =? id)
                                              && (Playground.userId p =? u)))
                              (playgrounds d)))) as Keep.
    { intros i Hi Hin. apply in_map_iff in Hin as (p & <- & Hp).
      apply in_map, filter_In. split; [assumption |].
      apply Z.eqb_neq in Hi. now rewrite Hi. }
    split; cbn.
    + intros b Hin. apply Keep; [now apply Nb | now apply Hb].
    + intros r Hin. apply Keep; [now apply Nr | now apply Hr].
Qed.

(** The foreign keys on [playgroundId] hold after any sequence of
    operations, deletions included, when they hold before it: no booking
    and no report is ever left without its playground. *)
Theorem run_all_keeps_references (os : list operation) (d : db) :
  references_ok d -> references_ok (run_all os d).
Proof.
  revert d. induction os as [| o os IH]; intros d H; cbn; [assumption |].
  now apply IH, step_keeps_references.
Qed.

Lemma run_all_keeps_references_witness :
  references_ok (one_court [])
  /\ references_ok (run_all busy_day (one_court [])).
Proof.
  assert (references_ok (one_court [])) as H by (split; intros x []).
  split; [exact H | now apply run_all_keeps_references].
Defined.

(** ** Reports *)

Lemma step_reports_cases (o : operation) (d : db) :
  let d' := snd (step o d) in
  playground_reports d' = playground_reports d
  \/ exists u pid reason,
       o = Core (ReportVenue u pid reason)
       /\ (forall x, In x (playground_reports d) ->
             (Report.playgroundId x =? pid) && (Report.userId x =? u) = false)
       /\ playground_reports d' = playground_reports d ++ [Report.mk pid u reason].
Proof.
  cbv zeta. destruct o as [r | u id]; cbn [step].
  - destruct (handle_reports_cases r d)
      as [[E _] | (u & pid & reason & -> & _ & New & E & _)]; [now left |].
    right. now exists u, pid, reason.
  - left. now destruct (delete_cases u id d) as [[_ ->] | (_ & -> & _)].
Qed.

Lemma step_keeps_unique_reports (o : operation) (d : db) :
  unique_reports d -> unique_reports (snd (step o d)).
Proof.
  unfold unique_reports. intros H.
  destruct (step_reports_cases o d) as [-> | (u & pid & reason & _ & New & ->)];
    [exact H |].
  rewrite map_app. cbn. apply NoDup_app; [exact H | repeat constructor; intros [] |].
  intros k Hk [<- | []]. apply in_map_iff in Hk as (x & E & Hx).
  injection E as Ep Eu. specialize (New x Hx).
  rewrite (proj2 (Z.eqb_eq _ _) Ep), (proj2 (Z.eqb_eq _ _) Eu) in New.
  discriminate.
Qed.

(** No sequence of operations stores two reports of one user against one
    playground: the handler's lookup keeps the unique key
    [(playgroundId, userId)] of [playground_reports]. *)
Theorem run_all_keeps_unique_reports (os : list operation) (d : db) :
  unique_reports d -> unique_reports (run_all os d).
Proof.
  revert d. induction os as [| o os IH]; intros d H; cbn; [assumption |].
  now apply IH, step_keeps_unique_reports.
Qed.

Lemma run_all_keeps_unique_reports_witness :
  unique_reports (one_court [])
  /\ unique_reports
       (run_all [Core (ReportVenue 30 1 "noisy"); Core (ReportVenue 30 1 "again");
                 Core (ReportVenue 31 1 "dirty")] (one_court [])).
Proof.
  assert (unique_reports (one_court [])) as H by constructor.
  split; [exact H | now apply run_all_keeps_unique_reports].
Defined.

Lemma report_count_same (i : Z) (d d' : db) :
  playground_reports d' = playground_reports d ->
  report_count i d' = report_count i d.
Proof.
  unfold report_count. now intros ->.
Qed.

Lemma report_count_added (i pid u : Z) (reason : string) (d d' : db) :
  playground_reports d' = playground_reports d ++ [Report.mk pid u reason] ->
  report_count i d' = report_count i d + (if i =? pid then 1 else 0).
Proof.
  unfold report_count. intros ->. rewrite filter_app, length_app. cbn.
  rewrite (Z.eqb_sym pid i). destruct (i =? pid); cbn; lia.
Qed.

Lemma step_keeps_counts (o : operation) (d : db) :
  counts_ok d -> counts_ok (snd (step o d)).
Proof.
  unfold counts_ok. intros H. destruct o as [r | u id]; cbn [step].
  - destruct (handle_reports_cases r d)
      as [[Er [Ep | (t & i & Ep)]] | (u & pid & reason & _ & _ & _ & Er & Ep)];
      intros p' Hp'.
    + rewrite (report_count_same _ _ _ Er). apply H. now rewrite <- Ep.
    + rewrite (report_count_same _ _ _ Er). rewrite Ep in Hp'.
      apply in_map_iff in Hp' as (p & <- & Hp).
      destruct (Playground.id p =? i); cbn; now apply H.
    + rewrite (report_count_added _ _ _ _ _ _ Er). rewrite Ep in Hp'.
      apply in_map_iff in Hp' as (p & <- & Hp).
      destruct (Playground.id p =? pid) eqn:E;
        cbn [Playground.id Playground.reports Playground.incr_reports];
        rewrite E, (H p Hp); lia.
  - destruct (delete_cases u id d) as [[_ E] | (_ & E & _)]; rewrite E;
      [exact H |].
    intros p Hp. cbn in Hp. apply filter_In in Hp as [Hp _].
    rewrite (H p Hp). now apply report_count_same.
Qed.

(** After any sequence of operations the [reports] column of every
    playground is the number of reports stored against it, when it was so
    before. *)
Theorem run_all_keeps_counts (os : list operation) (d : db) :
  counts_ok d -> counts_ok (run_all os d).
Proof.
  revert d. induction os as [| o os IH]; intros d H; cbn; [assumption |].
  now apply IH, step_keeps_counts.
Qed.

Lemma run_all_keeps_counts_witness :
  counts_ok (one_court []) /\ counts_ok (run_all busy_day (one_court [])).
Proof.
  assert (counts_ok (one_court [])) as H.
  { intros p [<- | []]. reflexivity. }
  split; [exact H | now apply run_all_keeps_counts].
Defined.

(** ** Deleting a playground *)

(** Under the primary key of [playgrounds]: deleting answers
    [Unauthorized] (403) when the playground does not exist or is someone
    else's; it fails with a storage error (500) while any booking,
    cancelled ones included, or any report references the playground; in
    these cases nothing is written.  Otherwise the row is removed and
    nothing else changes. *)
Theorem delete_outcomes (userId id : Z) (d : db) :
  NoDup (map Playground.id (playgrounds d)) ->
  ((forall p, In p (playgrounds d) -> Playground.id p = id ->
      Playground.userId p <> userId) ->
   PlaygroundAdmin.delete userId id d = (Error 403 Unauthorized, d))
  /\ (forall p, In p (playgrounds d) -> Playground.id p = id ->
        Playground.userId p = userId ->
        (((exists b, In b (bookings d) /\ Booking.playgroundId b = id)
          \/ (exists r, In r (playground_reports d) /\ Report.playgroundId r = id)) ->
         PlaygroundAdmin.delete userId id d = (Error 500 StorageError, d))
        /\ ((forall b, In b (bookings d) -> Booking.playgroundId b <> id) ->
            (forall r, In r (playground_reports d) -> Report.playgroundId r <> id) ->
            let d' := snd (PlaygroundAdmin.delete userId id d) in
            fst (PlaygroundAdmin.delete userId id d) = Ok
            /\ (forall q, In q (playgrounds d') <->
                          In q (playgrounds d) /\ Playground.id q <> id)
            /\ bookings d' = bookings d
            /\ playground_reports d' = playground_reports d
            /\ next_booking_id d' = next_booking_id d)).
Proof.
  intros Hkey. split.
  - intros Hnone. unfold PlaygroundAdmin.delete.
    rewrite filter_no_key; [reflexivity |].
    intros p Hp. destruct (Playground.id p =? id) eqn:E; [| reflexivity].
    apply Z.eqb_eq in E. cbn. apply Z.eqb_neq. now apply Hnone.
  - intros p Hp Hid Hu.
    assert (filter (fun q => (Playground.id q =? id)
                             && (Playground.userId q =? userId)) (playgrounds d)
            = [p]) as Sel.
    { rewrite (filter_andb (fun q => Playground.id q =? id)
                           (fun q => Playground.userId q =? userId)).
      rewrite (filter_unique_key Playground.id _ p id Hkey Hp Hid). cbn.
      now rewrite (proj2 (Z.eqb_eq _ _) Hu). }
    assert (existsb (fun q => (Playground.id q =? id)
                              && (Playground.userId q =? userId))
                    (playgrounds d) = true) as Ex.
    { apply existsb_exists. exists p. split; [assumption |].
      now rewrite (proj2 (Z.eqb_eq _ _) Hid), (proj2 (Z.eqb_eq _ _) Hu). }
    unfold PlaygroundAdmin.delete, PlaygroundAdmin.delete_playground.
    rewrite Sel, Ex. cbn [andb]. split.
    + intros Href.
      replace (existsb _ (bookings d) || existsb _ (playground_reports d))
        with true; [reflexivity |].
      symmetry. apply orb_true_iff.
      destruct Href as [(b & Hb & E) | (r & Hr & E)]; [left | right];
        apply existsb_exists; eexists; (split; [eassumption |]);
        now apply Z.eqb_eq.
    + intros Nb Nr.
      replace (existsb _ (bookings d) || existsb _ (playground_reports d))
        with false.
      2:{ symmetry. apply orb_false_iff. split; apply not_true_is_false;
          intros H; apply existsb_exists in H as (x & Hx & E);
          apply Z.eqb_eq in E; [now apply (Nb x) | now apply (Nr x)]. }
      cbn. repeat split.
      * apply filter_In in H as [Hq _]. exact Hq.
      * apply filter_In in H as [Hq Hm]. intros E.
        assert (q = p) as -> by (apply (unique_key_row Playground.id (playgrounds d));
                                 congruence).
        rewrite (proj2 (Z.eqb_eq _ _) Hid), (proj2 (Z.eqb_eq _ _) Hu) in Hm.
        discriminate.
      * intros [Hq Hne]. apply filter_In. split; [assumption |].
        apply Z.eqb_neq in Hne. now rewrite Hne.
Qed.

Lemma delete_outcomes_witness :
  PlaygroundAdmin.delete 10 1 (one_court [slot 1 1 20 "09:00" "10:00" cancelled])
  = (Error 500 StorageError, one_court [slot 1 1 20 "09:00" "10:00" cancelled])
  /\ PlaygroundAdmin.delete 11 1 (one_court [])
     = (Error 403 Unauthorized, one_court []).
Proof.
  split.
  - destruct (delete_outcomes 10 1
                (one_court [slot 1 1 20 "09:00" "10:00" cancelled])) as [_ H].
    + repeat constructor. intros [].
    + destruct (H (court 1 10)) as [Href _]; [now left | reflexivity | reflexivity |].
      apply Href. left. exists (slot 1 1 20 "09:00" "10:00" cancelled).
      split; [now left | reflexivity].
  - destruct (delete_outcomes 11 1 (one_court [])) as [Hnone _].
    + repeat constructor. intros [].
    + apply Hnone. intros p [<- | []] _. discriminate.
Defined.

Lemma step_keeps_booking_of (o : operation) (d : db) (pid : Z) :
  (exists b, In b (bookings d) /\ Booking.playgroundId b = pid) ->
  exists b, In b (bookings (snd (step o d))) /\ Booking.playgroundId b = pid.
Proof.
  intros (b & Hb & Hp).
  assert (forall f : Booking.t -> Booking.t,
            (forall x, Booking.playgroundId (f x) = Booking.playgroundId x) ->
            exists b', In b' (map f (bookings d)) /\ Booking.playgroundId b' = pid)
    as Rewritten.
  { intros f Hf. exists (f b). split; [now apply in_map | now rewrite Hf]. }
  destruct o as [r | u id]; cbn [step].
  - destruct (handle_bookings_cases r d)
      as [E | [(u & i & _ & _ & E) | [(u & i & _ & _ & E)
         | [(v & i & E) | (u & body & b0 & _ & _ & E)]]]]; rewrite E.
    + now exists b.
    + apply Rewritten. intros x. now destruct (Booking.id x =? i).
    + apply Rewritten. intros x. now destruct (Booking.id x =? i).
    + apply Rewritten. intros x. now destruct (Booking.id x =? i).
    + exists b. split; [apply in_or_app; now left | assumption].
  - exists b. split; [| assumption].
    now destruct (delete_cases u id d) as [[_ ->] | (_ & -> & _)].
Qed.

Lemma step_keeps_report_of (o : operation) (d : db) (pid : Z) :
  (exists r, In r (playground_reports d) /\ Report.playgroundId r = pid) ->
  exists r, In r (playground_reports (snd (step o d)))
            /\ Report.playgroundId r = pid.
Proof.
  intros (r & Hr & Hp). exists r. split; [| assumption].
  destruct (step_reports_cases o d) as [-> | (u & p & reason & _ & _ & ->)];
    [assumption | apply in_or_app; now left].
Qed.

Lemma step_keeps_referenced_playground (o : operation) (d : db) (pid : Z) :
  (exists b, In b (bookings d) /\ Booking.playgroundId b = pid)
  \/ (exists r, In r (playground_reports d) /\ Report.playgroundId r = pid) ->
  In pid (map Playground.id (playgrounds d)) ->
  In pid (map Playground.id (playgrounds (snd (step o d)))).
Proof.
  intros Href Hin. destruct o as [r | u id]; cbn [step].
  - now rewrite handle_playground_ids.
  - destruct (delete_cases u id d) as [[_ E] | (_ & E & Nb & Nr)]; rewrite E;
      [assumption |].
    assert (pid <> id) as Hne.
    { destruct Href as [(b & Hb & <-) | (x & Hx & <-)];
        [now apply Nb | now apply Nr]. }
    apply in_map_iff in Hin as (p & <- & Hp). cbn.
    apply in_map, filter_In. split; [assumption |].
    apply Z.eqb_neq in Hne. now rewrite Hne.
Qed.

(** A playground that has a booking, whatever its status, or a report
    stays in the table through every sequence of operations: bookings and
    reports are never removed, and the deletion fails on their foreign
    keys.  In particular a playground that has been reported cannot be
    deleted by its owner. *)
Theorem referenced_playground_stays (os : list operation) (d : db) (pid : Z) :
  (exists b, In b (bookings d) /\ Booking.playgroundId b = pid)
  \/ (exists r, In r (playground_reports d) /\ Report.playgroundId r = pid) ->
  In pid (map Playground.id (playgrounds d)) ->
  In pid (map Playground.id (playgrounds (run_all os d))).
Proof.
  revert d. induction os as [| o os IH]; intros d Href Hin; cbn; [assumption |].
  apply IH.
  - destruct Href as [Hb | Hr]; [left | right];
      [now apply step_keeps_booking_of | now apply step_keeps_report_of].
  - now apply step_keeps_referenced_playground.
Qed.

Lemma referenced_playground_stays_witness :
  In 1 (map Playground.id
          (playgrounds
             (run_all [Core (Cancel 20 1); DeletePlayground 10 1]
                (one_court [slot 1 1 20 "09:00" "10:00" pending])))).
Proof.
  apply referenced_playground_stays.
  - left. exists (slot 1 1 20 "09:00" "10:00" pending).
    split; [now left | reflexivity].
  - now left.
Defined.

(** ** Double booking *)





Lemma clash_sym (a b : Booking.t) : clash a b = clash b a.
Proof.
  unfold clash, overlaps.
  rewrite (Z.eqb_sym (Booking.playgroundId a)), (String.eqb_sym (Booking.date a)).
  destruct (Booking.playgroundId b =? Booking.playgroundId a); [| reflexivity].
  destruct (Booking.date b =? Booking.date a)%string; [| reflexivity].
  destruct (live a), (live b); cbn; try reflexivity. apply andb_comm.
Qed.





Lemma no_clash_between (l : list Booking.t) (a b : Booking.t) :
  ForallOrdPairs (fun x y => clash x y = false) l ->
  In a l -> In b l -> a <> b -> clash a b = false.
Proof.
  induction 1 as [| c l Hc _ IH]; intros Ha Hb Hne; [contradiction |].
  rewrite Forall_forall in Hc.
  destruct Ha as [-> | Ha], Hb as [-> | Hb].
  - now destruct Hne.
  - now apply Hc.
  - rewrite clash_sym. now apply Hc.
  - now apply IH.
Qed.

(** Confirming a cancelled booking books the court twice when its slot
    has been taken in the meantime: under the primary keys, if booking [b]
    is cancelled, another booking [b'] of the same playground and date is
    not and their intervals overlap, the owner's confirmation of [b]
    succeeds and leaves both in the table, neither cancelled. *)
Theorem confirm_cancelled_books_twice (userId id : Z) (d : db)
    (b b' : Booking.t) (p : Playground.t) :
  NoDup (map Booking.id (bookings d)) ->
  NoDup (map Playground.id (playgrounds d)) ->
  In b (bookings d) -> Booking.id b = id -> Booking.status b = cancelled ->
  In b' (bookings d) -> Booking.id b' <> id -> live b' = true ->
  Booking.playgroundId b' = Booking.playgroundId b ->
  Booking.date b' = Booking.date b ->
  overlaps (Booking.timeStart b) (Booking.timeEnd b)
           (Booking.timeStart b') (Booking.timeEnd b') = true ->
  In p (playgrounds d) -> Playground.id p = Booking.playgroundId b ->
  Playground.userId p = userId ->
  let d' := snd (BookingRoutes.confirm userId id d) in
  fst (BookingRoutes.confirm userId id d) = Ok
  /\ In (Booking.set_status confirmed b) (bookings d')
  /\ In b' (bookings d')
  /\ clash (Booking.set_status confirmed b) b' = true
  /\ ~ no_double_booking d'.
Proof.
  intros Kb Kp Hb Hid Hs Hb' Hid' Hl' Hp' Hd' Hover Hp Hpid Hu. cbv zeta.
  unfold BookingRoutes.confirm.
  rewrite (select_with_owner_row id d b p Kb Kp Hb Hid Hp Hpid).
  rewrite (proj2 (Z.eqb_eq _ _) Hu). cbn [negb fst snd].
  assert (In (Booking.set_status confirmed b)
             (bookings (update_booking_status confirmed id d))) as In1
    by now apply update_status_at.
  assert (In b' (bookings (update_booking_status confirmed id d))) as In2.
  { unfold update_booking_status. cbn. apply in_map_iff. exists b'.
    split; [| assumption]. apply Z.eqb_neq in Hid'. now rewrite Hid'. }
  assert (clash (Booking.set_status confirmed b) b' = true) as Hclash.
  { unfold clash. cbn. rewrite Hp', Hd', Z.eqb_refl, String.eqb_refl, Hl', Hover.
    reflexivity. }
  repeat split; auto.
  intros Free.
  assert (clash (Booking.set_status confirmed b) b' = false) as No.
  { apply (no_clash_between _ _ _ Free In1 In2).
    intros E. apply Hid'. rewrite <- E. exact Hid. }
  congruence.
Qed.

Lemma confirm_cancelled_books_twice_witness :
  let d := one_court [slot 1 1 20 "09:00" "10:00" cancelled;
                      slot 2 1 30 "09:30" "10:30" pending] in
  no_double_booking d
  /\ fst (BookingRoutes.confirm 10 1 d) = Ok
  /\ ~ no_double_booking (snd (BookingRoutes.confirm 10 1 d)).
Proof.
  cbv zeta. split; [repeat constructor |].
  destruct (confirm_cancelled_books_twice 10 1
              (one_court [slot 1 1 20 "09:00" "10:00" cancelled;
                          slot 2 1 30 "09:30" "10:30" pending])
              (slot 1 1 20 "09:00" "10:00" cancelled)
              (slot 2 1 30 "09:30" "10:30" pending)
              (court 1 10)) as (Hok & _ & _ & _ & Hno);
    try reflexivity; try discriminate.
  - repeat constructor; cbn; intuition discriminate.
  - repeat constructor. intros [].
  - now left.
  - right. now left.
  - now left.
  - split; assumption.
Defined.

(** ** The listings *)

Lemma insert_by_in (le : Booking.t -> Booking.t -> bool) (b x : Booking.t)
    (l : list Booking.t) :
  In x (insert_by le b l) <-> x = b \/ In x l.
Proof.
  induction l as [| a l IH]; cbn.
  - intuition.
  - destruct (le b a); cbn; [intuition | rewrite IH; intuition].
Qed.

Lemma order_by_in (le : Booking.t -> Booking.t -> bool) (x : Booking.t)
    (l : list Booking.t) :
  In x (order_by le l) <-> In x l.
Proof.
  unfold order_by. induction l as [| a l IH]; cbn; [reflexivity |].
  rewrite insert_by_in, IH. intuition.
Qed.

Lemma incoming_in (userId : Z) (d : db) (b : Booking.t) :
  In b (BookingLists.incoming userId d)
  <-> In b (bookings d)
      /\ Booking.status b = pending
      /\ exists p, In p (playgrounds d)
                   /\ Playground.id p = Booking.playgroundId b
                   /\ Playground.userId p = userId.
Proof.
  unfold BookingLists.incoming. rewrite order_by_in, in_flat_map. split.
  - intros (a & Ha & Hin). apply in_flat_map in Hin as (p & Hp & Hin).
    apply filter_In in Hp as [Hp Hid]. apply Z.eqb_eq in Hid.
    destruct ((Playground.userId p =? userId)
              && status_eqb (Booking.status a) pending) eqn:E; [| contradiction].
    destruct Hin as [<- | []]. apply andb_true_iff in E as [Eu Es].
    apply Z.eqb_eq in Eu. apply status_eqb_eq in Es.
    split; [assumption |]. split; [assumption |]. now exists p.
  - intros (Hb & Hs & p & Hp & Hid & Hu). exists b. split; [assumption |].
    apply in_flat_map. exists p. split.
    + apply filter_In. split; [assumption | now apply Z.eqb_eq].
    + rewrite (proj2 (Z.eqb_eq _ _) Hu), Hs. now left.
Qed.

Lemma mine_in (userId : Z) (d : db) (b : Booking.t) :
  In b (BookingLists.mine userId d)
  <-> In b (bookings d)
      /\ Booking.userId b = userId
      /\ In (Booking.playgroundId b) (map Playground.id (playgrounds d)).
Proof.
  unfold BookingLists.mine. rewrite order_by_in, in_flat_map. split.
  - intros (a & Ha & Hin). apply in_flat_map in Hin as (p & Hp & Hin).
    apply filter_In in Hp as [Hp Hid]. apply Z.eqb_eq in Hid.
    destruct (Booking.userId a =? userId) eqn:E; [| contradiction].
    destruct Hin as [<- | []]. apply Z.eqb_eq in E.
    split; [assumption |]. split; [assumption |].
    rewrite <- Hid. now apply in_map.
  - intros (Hb & Hu & Hin). apply in_map_iff in Hin as (p & Hid & Hp).
    exists b. split; [assumption |]. apply in_flat_map. exists p. split.
    + apply filter_In. split; [assumption | now apply Z.eqb_eq].
    + rewrite (proj2 (Z.eqb_eq _ _) Hu). now left.
Qed.

(** A booking that has just been created shows in the requester's own
    list and in the incoming list of the owner of the playground. *)
Theorem created_booking_is_listed (userId : Z) (body : BookingRoutes.create_body)
    (d : db) (b : Booking.t) (d' : db) :
  BookingRoutes.create userId body d = (Created b, d') ->
  In b (BookingLists.mine userId d')
  /\ forall p, In p (playgrounds d) ->
       Playground.id p = BookingRoutes.playgroundId body ->
       In b (BookingLists.incoming (Playground.userId p) d').
Proof.
  intros Run.
  apply create_created in Run as ((day & _ & ->) & -> & _ & Sel & _). split.
  - apply mine_in. cbn. split; [apply in_or_app; right; now left |].
    split; [reflexivity | now apply select_playground_in].
  - intros p Hp Hid. apply incoming_in. cbn.
    split; [apply in_or_app; right; now left |].
    split; [reflexivity | now exists p].
Qed.

Lemma created_booking_is_listed_witness :
  In (slot 1 1 20 "09:00" "10:00" pending)
     (BookingLists.mine 20 (one_court [slot 1 1 20 "09:00" "10:00" pending]))
  /\ In (slot 1 1 20 "09:00" "10:00" pending)
        (BookingLists.incoming 10
           (one_court [slot 1 1 20 "09:00" "10:00" pending])).
Proof.
  destruct (created_booking_is_listed 20 (ask "09:00" "10:00") (one_court [])
              (slot 1 1 20 "09:00" "10:00" pending)
              (one_court [slot 1 1 20 "09:00" "10:00" pending]) eq_refl)
    as [Hmine Hincoming].
  split; [exact Hmine |].
  apply (Hincoming (court 1 10)); [now left | reflexivity].
Defined.

(** Under the primary keys, every booking in a user's incoming list can
    be confirmed by that user, and once confirmed it is in the list no
    more. *)
Theorem incoming_can_be_confirmed (userId : Z) (d : db) (b : Booking.t) :
  NoDup (map Booking.id (bookings d)) ->
  NoDup (map Playground.id (playgrounds d)) ->
  In b (BookingLists.incoming userId d) ->
  let d' := snd (BookingRoutes.confirm userId (Booking.id b) d) in
  fst (BookingRoutes.confirm userId (Booking.id b) d) = Ok
  /\ In (Booking.set_status confirmed b) (bookings d')
  /\ forall x, In x (BookingLists.incoming userId d') ->
       Booking.id x <> Booking.id b.
Proof.
  intros Kb Kp Hin. apply incoming_in in Hin as (Hb & _ & p & Hp & Hid & Hu).
  cbv zeta. unfold BookingRoutes.confirm.
  rewrite (select_with_owner_row _ d b p Kb Kp Hb eq_refl Hp Hid).
  rewrite (proj2 (Z.eqb_eq _ _) Hu). cbn [negb fst snd].
  split; [reflexivity |]. split; [now apply update_status_at |].
  intros x Hx. apply incoming_in in Hx as (Hx & Hs & _).
  unfold update_booking_status in Hx. cbn in Hx.
  apply in_map_iff in Hx as (y & <- & Hy).
  destruct (Booking.id y =? Booking.id b) eqn:E; [discriminate |].
  now apply Z.eqb_neq.
Qed.

Lemma incoming_can_be_confirmed_witness :
  let d := one_court [slot 1 1 20 "09:00" "10:00" pending;
                      slot 2 1 30 "10:00" "11:00" pending] in
  fst (BookingRoutes.confirm 10 1 d) = Ok
  /\ forall x, In x (BookingLists.incoming 10 (snd (BookingRoutes.confirm 10 1 d))) ->
       Booking.id x <> 1.
Proof.
  cbv zeta.
  destruct (incoming_can_be_confirmed 10
              (one_court [slot 1 1 20 "09:00" "10:00" pending;
                          slot 2 1 30 "10:00" "11:00" pending])
              (slot 1 1 20 "09:00" "10:00" pending)) as (Hok & _ & Hgone).
  - repeat constructor; cbn; intuition discriminate.
  - repeat constructor. intros [].
  - cbn. now left.
  - split; [exact Hok | exact Hgone].
Defined.

(** A successful cancel takes the booking out of every incoming list and
    leaves it, cancelled, in the requester's own list. *)
Theorem cancelled_booking_leaves_incoming (userId id : Z) (d d' : db) :
  BookingRoutes.cancel userId id d = (Ok, d') ->
  (forall owner x, In x (BookingLists.incoming owner d') -> Booking.id x <> id)
  /\ (forall b, In b (BookingLists.mine userId d) -> Booking.id b = id ->
        In (Booking.set_status cancelled b) (BookingLists.mine userId d')).
Proof.
  unfold BookingRoutes.cancel.
  destruct (filter _ (bookings d)) as [| b0 bs]; [discriminate |].
  destruct (negb _); [discriminate |].
  intros H. injection H as <-. split.
  - intros owner x Hx. apply incoming_in in Hx as (Hx & Hs & _).
    unfold update_booking_status in Hx. cbn in Hx.
    apply in_map_iff in Hx as (y & <- & Hy).
    destruct (Booking.id y =? id) eqn:E; [discriminate |].
    now apply Z.eqb_neq.
  - intros b Hb Hid. apply mine_in in Hb as (Hb & Hu & Hp). apply mine_in.
    split; [now apply update_status_at |]. now split.
Qed.

Lemma cancelled_booking_leaves_incoming_witness :
  (forall owner x,
     In x (BookingLists.incoming owner
             (one_court [slot 1 1 20 "09:00" "10:00" cancelled])) ->
     Booking.id x <> 1)
  /\ In (slot 1 1 20 "09:00" "10:00" cancelled)
        (BookingLists.mine 20 (one_court [slot 1 1 20 "09:00" "10:00" cancelled])).
Proof.
  destruct (cancelled_booking_leaves_incoming 20 1
              (one_court [slot 1 1 20 "09:00" "10:00" pending])
              (one_court [slot 1 1 20 "09:00" "10:00" cancelled]) eq_refl)
    as [Hgone Hmine].
  split; [exact Hgone |].
  apply (Hmine (slot 1 1 20 "09:00" "10:00" pending)); [cbn; now left | reflexivity].
Defined.

(** ** Rating twice *)

Lemma rate_rows_twice (r i : Z) (bs : list Booking.t) :
  rate_rows r i (rate_rows r i bs) = rate_rows r i bs.
Proof.
  unfold rate_rows. rewrite map_map. apply map_ext. intros b.
  destruct (Booking.id b =? i) eqn:E; [| now rewrite E].
  cbn. now rewrite E.
Qed.

Lemma rate_rows_has_id (r i j : Z) (bs : list Booking.t) :
  existsb (fun b => Booking.id b =? j) (rate_rows r i bs)
  = existsb (fun b => Booking.id b =? j) bs.
Proof.
  unfold rate_rows. induction bs as [| b bs IH]; [reflexivity |].
  cbn. rewrite IH. now destruct (Booking.id b =? i).
Qed.

Lemma set_rating_twice (t1 t2 i : Z) (ps : list Playground.t) :
  map (fun p => if Playground.id p =? i then Playground.set_rating t2 p else p)
      (map (fun p => if Playground.id p =? i then Playground.set_rating t1 p else p)
           ps)
  = map (fun p => if Playground.id p =? i then Playground.set_rating t2 p else p) ps.
Proof.
  rewrite map_map. apply map_ext. intros p.
  destruct (Playground.id p =? i) eqn:E; [| now rewrite E].
  cbn. now rewrite E.
Qed.

Lemma set_rating_has_id (t i : Z) (ps : list Playground.t) :
  existsb (fun p => Playground.id p =? i)
          (map (fun p => if Playground.id p =? i
                         then Playground.set_rating t p else p) ps)
  = existsb (fun p => Playground.id p =? i) ps.
Proof.
  induction ps as [| p ps IH]; [reflexivity |].
  cbn. rewrite IH. destruct (Playground.id p =? i) eqn:E; cbn; now rewrite E.
Qed.

Lemma playgrounds_rating_unfold (userId id : Z) (body : BookingRoutes.rating_body)
    (d : db) :
  PlaygroundRoutes.rating_handler userId id body d
  = let tenths := stored_average id (bookings d) in
    if existsb (fun p => Playground.id p =? id) (playgrounds d)
       && negb (in_decimal_3_1 tenths)
    then (Error 500 StorageError, d)
    else
      let d1 := with_playgrounds
                  (map (fun p => if Playground.id p =? id
                                 then Playground.set_rating tenths p else p)
                       (playgrounds d)) d in
      if existsb (fun b => Booking.id b =? BookingRoutes.bookingId body)
                 (bookings d)
         && negb (in_int_range (BookingRoutes.rating body))
      then (Error 500 StorageError, d1)
      else (Ok, with_bookings
                  (rate_rows (BookingRoutes.rating body)
                             (BookingRoutes.bookingId body) (bookings d)) d1).
Proof.
  unfold PlaygroundRoutes.rating_handler, update_playground_rating,
    select_avg_rating, stored_average, update_booking_rating.
  destruct (rated_ratings id (bookings d)); cbv zeta;
    destruct (existsb _ (playgrounds d) && negb _); try reflexivity;
    cbn [bookings with_playgrounds];
    now destruct (existsb _ (bookings d) && negb _).
Qed.

(** Sending the same rating again through the bookings router changes
    nothing: the operation is idempotent. *)
Theorem bookings_rating_idempotent (userId userId' id : Z)
    (body : BookingRoutes.rating_body) (d d1 : db) :
  BookingRoutes.rating_handler userId id body d = (Ok, d1) ->
  BookingRoutes.rating_handler userId' id body d1 = (Ok, d1).
Proof.
  rewrite !bookings_rating_unfold. unfold update_booking_rating.
  destruct (existsb _ (bookings d) && negb _) eqn:E1; [discriminate |].
  cbv zeta. unfold with_playgrounds, with_bookings.
  cbn [bookings playgrounds playground_reports next_booking_id].
  destruct (existsb _ (playgrounds d) && negb _) eqn:E2; [discriminate |].
  intros H. injection H as <-.
  cbn [bookings playgrounds playground_reports next_booking_id].
  rewrite rate_rows_has_id, E1.
  cbn [bookings playgrounds playground_reports next_booking_id].
  rewrite rate_rows_twice, set_rating_has_id, E2, set_rating_twice.
  reflexivity.
Qed.

Lemma bookings_rating_idempotent_witness :
  BookingRoutes.rating_handler 20 1 (BookingRoutes.mkRating 4 1)
    (mkDb [Playground.mk 1 10 0 40 true] [rated_slot 1 1 20 4] [] 2)
  = (Ok, mkDb [Playground.mk 1 10 0 40 true] [rated_slot 1 1 20 4] [] 2).
Proof.
  apply (bookings_rating_idempotent 20 20 1 (BookingRoutes.mkRating 4 1)
           (one_court [unrated_slot 1 1 20])).
  reflexivity.
Defined.

(** The rating operation of the playgrounds router catches up when it is
    sent twice: two completed calls leave the database the bookings
    router leaves after one. *)
Theorem playgrounds_rating_twice (userId id : Z) (body : BookingRoutes.rating_body)
    (d d1 d2 : db) :
  PlaygroundRoutes.rating_handler userId id body d = (Ok, d1) ->
  PlaygroundRoutes.rating_handler userId id body d1 = (Ok, d2) ->
  BookingRoutes.rating_handler userId id body d = (Ok, d2).
Proof.
  intros H1 H2.
  rewrite playgrounds_rating_unfold in H1. cbv zeta in H1.
  destruct (existsb (fun p => Playground.id p =? id) (playgrounds d)
            && negb (in_decimal_3_1 (stored_average id (bookings d))));
    [discriminate |].
  destruct (existsb (fun b => Booking.id b =? BookingRoutes.bookingId body)
                    (bookings d)
            && negb (in_int_range (BookingRoutes.rating body))) eqn:E2;
    [discriminate |].
  injection H1 as <-.
  rewrite playgrounds_rating_unfold in H2. cbv zeta in H2.
  unfold with_playgrounds, with_bookings in H2.
  cbn [bookings playgrounds playground_reports next_booking_id] in H2.
  rewrite set_rating_has_id, rate_rows_has_id, E2, rate_rows_twice,
    set_rating_twice in H2.
  rewrite bookings_rating_unfold. unfold update_booking_rating. rewrite E2.
  cbv zeta. unfold with_playgrounds, with_bookings.
  cbn [bookings playgrounds playground_reports next_booking_id].
  destruct (existsb (fun p => Playground.id p =? id) (playgrounds d) && negb _);
    [discriminate | exact H2].
Qed.

Lemma playgrounds_rating_twice_witness :
  BookingRoutes.rating_handler 20 1 (BookingRoutes.mkRating 3 2)
    (one_court [rated_slot 1 1 20 5; unrated_slot 2 1 20])
  = (Ok, mkDb [Playground.mk 1 10 0 40 true]
              [rated_slot 1 1 20 5; rated_slot 2 1 20 3] [] 3).
Proof.
  apply (playgrounds_rating_twice 20 1 (BookingRoutes.mkRating 3 2)
           (one_court [rated_slot 1 1 20 5; unrated_slot 2 1 20])
           (mkDb [Playground.mk 1 10 0 50 true]
                 [rated_slot 1 1 20 5; rated_slot 2 1 20 3] [] 3));
    reflexivity.
Defined.

(** ** Who may write *)

(** A status is only written for someone with rights over the booking,
    and a playground only deleted by its owner: a cancel that succeeds was
    asked by the requester of a pending booking with that id, a confirm
    that succeeds by the owner of the playground of a booking with that
    id, which then is in the owner's own list of playgrounds, and so is a
    playground whose deletion succeeds. *)
Theorem writes_need_rights (userId id : Z) (d : db) :
  (fst (BookingRoutes.cancel userId id d) = Ok ->
   exists b, In b (bookings d) /\ Booking.id b = id
             /\ Booking.userId b = userId /\ Booking.status b = pending)
  /\ (fst (BookingRoutes.confirm userId id d) = Ok ->
      exists b p, In b (bookings d) /\ Booking.id b = id
                  /\ In p (PlaygroundAdmin.mine userId d)
                  /\ Playground.id p = Booking.playgroundId b)
  /\ (fst (PlaygroundAdmin.delete userId id d) = Ok ->
      exists p, In p (PlaygroundAdmin.mine userId d) /\ Playground.id p = id).
Proof.
  split; [| split].
  - unfold BookingRoutes.cancel.
    destruct (filter _ (bookings d)) as [| b bs] eqn:F; [discriminate |].
    destruct (status_eqb (Booking.status b) pending) eqn:Es; [| discriminate].
    intros _. exists b.
    assert (In b (filter (fun b => (Booking.id b =? id)
                                   && (Booking.userId b =? userId)) (bookings d)))
      as Hin by (rewrite F; now left).
    apply filter_In in Hin as [Hin Hm]. apply andb_true_iff in Hm as [Hi Hu].
    apply Z.eqb_eq in Hi. apply Z.eqb_eq in Hu. apply status_eqb_eq in Es.
    now repeat split.
  - unfold BookingRoutes.confirm.
    destruct (BookingRoutes.select_with_owner id d) as [| [b o] rows] eqn:S;
      [discriminate |].
    destruct (o =? userId) eqn:Eo; [| discriminate].
    intros _. apply Z.eqb_eq in Eo.
    assert (In (b, o) (BookingRoutes.select_with_owner id d)) as Hin
      by (rewrite S; now left).
    unfold BookingRoutes.select_with_owner in Hin.
    apply in_flat_map in Hin as (a & Ha & Hin).
    destruct (Booking.id a =? id) eqn:Ei; [| contradiction].
    apply in_map_iff in Hin as (p & E & Hp). injection E as <- <-.
    apply filter_In in Hp as [Hp Hid]. apply Z.eqb_eq in Hid, Ei.
    exists a, p. repeat split; auto.
    apply filter_In. split; [assumption | now apply Z.eqb_eq].
  - unfold PlaygroundAdmin.delete.
    destruct (filter _ (playgrounds d)) as [| p ps] eqn:F; [discriminate |].
    intros _. exists p.
    assert (In p (filter (fun p => (Playground.id p =? id)
                                   && (Playground.userId p =? userId))
                         (playgrounds d))) as Hin by (rewrite F; now left).
    apply filter_In in Hin as [Hin Hm]. apply andb_true_iff in Hm as [Hi Hu].
    apply Z.eqb_eq in Hi. split; [| assumption].
    apply filter_In. now split.
Qed.

(** ** Ratings between 1 and 5 *)

Lemma round_div_between (n d lo hi : Z) :
  0 < d -> lo * d <= n <= hi * d -> lo <= round_div n d <= hi.
Proof.
  intros Hd Hn. pose proof (round_div_near n d Hd) as Near.
  set (q := round_div n d) in *. split.
  - destruct (Z_lt_le_dec q lo) as [Hlt |]; [| assumption].
    assert (q * d <= (lo - 1) * d) by nia. lia.
  - destruct (Z_lt_le_dec hi q) as [Hlt |]; [| assumption].
    assert ((hi + 1) * d <= q * d) by nia. lia.
Qed.

Lemma sum_between (rs : list Z) (lo hi : Z) :
  (forall r, In r rs -> lo <= r <= hi) ->
  lo * Z.of_nat (List.length rs) <= sum rs <= hi * Z.of_nat (List.length rs).
Proof.
  induction rs as [| r rs IH]; intros H; [cbn; lia |].
  specialize (IH (fun x Hx => H x (or_intror Hx))).
  pose proof (H r (or_introl eq_refl)).
  cbn [sum fold_right List.length]. fold (sum rs). lia.
Qed.

Lemma stored_average_between (id : Z) (bs : list Booking.t) (lo hi : Z) :
  (forall r, In r (rated_ratings id bs) -> lo <= r <= hi) ->
  rated_ratings id bs <> [] ->
  10 * lo <= stored_average id bs <= 10 * hi.
Proof.
  unfold stored_average. intros H Hne.
  pose proof (sum_between _ lo hi H) as Hs.
  destruct (rated_ratings id bs) as [| r rs]; [easy |].
  set (n := Z.of_nat (List.length (r :: rs))) in *.
  assert (0 < n) as Hn by (subst n; cbn [List.length]; lia).
  apply round_div_between; [lia |].
  pose proof (round_div_between (sum (r :: rs) * 10000) n (lo * 10000)
                (hi * 10000) Hn ltac:(nia)).
  lia.
Qed.

(** When the rating sent and the ratings already stored for the
    playground are all between 1 and 5, the rating operation of the
    bookings router completes and the playground's stored rating is 0 (no
    rated booking) or between 1.0 and 5.0. *)
Theorem rating_stays_between_1_and_5 (userId id : Z)
    (body : BookingRoutes.rating_body) (d : db) :
  1 <= BookingRoutes.rating body <= 5 ->
  (forall b r, In b (bookings d) -> Booking.playgroundId b = id ->
     Booking.rated b = true -> Booking.rating b = Some r -> 1 <= r <= 5) ->
  fst (BookingRoutes.rating_handler userId id body d) = Ok
  /\ forall p, In p (playgrounds (snd (BookingRoutes.rating_handler userId id body d))) ->
       Playground.id p = id ->
       Playground.rating p = 0 \/ 10 <= Playground.rating p <= 50.
Proof.
  intros Hr Hstored. rewrite bookings_rating_unfold.
  unfold update_booking_rating.
  assert (in_int_range (BookingRoutes.rating body) = true) as ->.
  { unfold in_int_range, int_min, int_max. apply andb_true_iff.
    split; apply Z.leb_le; lia. }
  rewrite andb_false_r. cbv zeta. cbn [bookings playgrounds with_bookings].
  set (bs' := rate_rows (BookingRoutes.rating body)
                        (BookingRoutes.bookingId body) (bookings d)).
  assert (forall r, In r (rated_ratings id bs') -> 1 <= r <= 5) as Hall.
  { intros r Hin. unfold rated_ratings in Hin.
    apply in_flat_map in Hin as (b' & Hb' & Hin).
    destruct ((Booking.playgroundId b' =? id) && Booking.rated b') eqn:E;
      [| contradiction].
    apply andb_true_iff in E as [Ep Er]. apply Z.eqb_eq in Ep.
    destruct (Booking.rating b') as [x |] eqn:Ex; [| contradiction].
    destruct Hin as [<- | []].
    unfold bs', rate_rows in Hb'. apply in_map_iff in Hb' as (b & <- & Hb).
    destruct (Booking.id b =? BookingRoutes.bookingId body).
    - cbn in Ex. injection Ex as <-. exact Hr.
    - now apply (Hstored b x). }
  assert (stored_average id bs' = 0 \/ 10 <= stored_average id bs' <= 50) as Ht.
  { destruct (rated_ratings id bs') as [| r rs] eqn:E.
    - left. now apply stored_average_none.
    - right. apply (stored_average_between id bs' 1 5);
        rewrite E; [exact Hall | discriminate]. }
  assert (in_decimal_3_1 (stored_average id bs') = true) as ->.
  { unfold in_decimal_3_1. apply Z.leb_le. lia. }
  rewrite andb_false_r. cbn. split; [reflexivity |].
  intros p Hp Hid. apply in_map_iff in Hp as (q & <- & Hq).
  destruct (Playground.id q =? id) eqn:E; [exact Ht |].
  apply Z.eqb_neq in E. contradiction.
Qed.

Lemma rating_stays_between_1_and_5_witness :
  fst (BookingRoutes.rating_handler 22 1 (BookingRoutes.mkRating 4 3)
         (one_court [rated_slot 1 1 20 5; rated_slot 2 1 21 4;
                     unrated_slot 3 1 22])) = Ok.
Proof.
  apply (rating_stays_between_1_and_5 22 1 (BookingRoutes.mkRating 4 3)
           (one_court [rated_slot 1 1 20 5; rated_slot 2 1 21 4;
                       unrated_slot 3 1 22])).
  - cbn. lia.
  - intros b r [<- | [<- | [<- | []]]] _ _ E; try discriminate;
      injection E as <-; lia.
Defined.
